(** * mahjong-helper: the automatic player, its configuration store and the
      Majsoul action sender

    A shallow embedding of
      - [auto_player_config.go]  (configuration file: load, validate, save),
      - the automatic player     ([MakeDecision], [ExecuteDecision], ...),
      - the interactive loop     ([interact], [handleSpecialCommands]),
      - [platform/majsoul/action_sender.go] ([SendDiscard], [sendAction], ...),
    followed by the properties established about them.

    Conventions.
      - Go's [float64] is IEEE 754 binary64, taken from [SpecFloat] with
        precision 53 and maximal exponent 1024; [a > b] in the source is
        [Float64.gt a b], and so on.  NaN compares false with everything,
        as in Go.
      - Go's [int] is [Z]; [%] is the truncated remainder [Z.rem].
      - A run-time panic (index out of range) is the outcome [Panic].
      - Go's [error] is [option string]: [None] is [nil]. *)

From Stdlib Require Import ZArith List String Ascii Bool Lia.
From Stdlib Require Import SpecFloat DecimalString.
Import ListNotations.

#[local] Open Scope list_scope.
#[local] Open Scope string_scope.
#[local] Open Scope Z_scope.

(* ===================================================================== *)
(** ** float64 *)
(* ===================================================================== *)

Module Float64.

Definition float64 : Type := spec_float.

Definition prec : Z := 53.
Definition emax : Z := 1024.

(** An integer literal, e.g. [10.0]. *)
Definition of_Z (z : Z) : float64 := binary_normalize prec emax z 0 false.

(** A decimal literal [n/d], e.g. [0.85] is [of_ratio 85 100]: the binary64
    number nearest to the quotient. *)
Definition of_ratio (n d : Z) : float64 := SFdiv prec emax (of_Z n) (of_Z d).

Definition zero : float64 := S754_zero false.

Definition lt (a b : float64) : bool := SFltb a b.
Definition gt (a b : float64) : bool := SFltb b a.
Definition le (a b : float64) : bool := SFleb a b.
Definition eqb (a b : float64) : bool := SFeqb a b.
Definition mul (a b : float64) : float64 := SFmul prec emax a b.

Definition is_nan (a : float64) : bool :=
  match a with S754_nan => true | _ => false end.

(** [x] lies in the closed interval [[lo, hi]]. *)
Definition within (lo hi x : float64) : bool := le lo x && le x hi.

(** The order of the non-NaN values as a lexicographic order on triples:
    class (infinities, sign), then exponent, then mantissa. *)
Definition rank (x : float64) : Z * Z * Z :=
  match x with
  | S754_nan => (0, 0, 0)
  | S754_zero _ => (0, 0, 0)
  | S754_infinity true => (-2, 0, 0)
  | S754_infinity false => (2, 0, 0)
  | S754_finite false m e => (1, e, Zpos m)
  | S754_finite true m e => (-1, - e, Zneg m)
  end.

Definition cmp3 (p q : Z * Z * Z) : comparison :=
  let '(a, b, c) := p in
  let '(a', b', c') := q in
  match a ?= a' with
  | Eq => match b ?= b' with Eq => c ?= c' | r => r end
  | r => r
  end.

Definition lt3 (p q : Z * Z * Z) : Prop :=
  let '(a, b, c) := p in
  let '(a', b', c') := q in
  a < a' \/ (a = a' /\ (b < b' \/ (b = b' /\ c < c'))).

End Float64.

Import Float64.

(* ===================================================================== *)
(** ** Outcomes of code that may panic *)
(* ===================================================================== *)

Inductive outcome (A : Type) : Type :=
| Ret (a : A)
| Panic (msg : string).

Arguments Ret {A} a.
Arguments Panic {A} msg.

Definition obind {A B : Type} (o : outcome A) (k : A -> outcome B) : outcome B :=
  match o with
  | Ret a => k a
  | Panic m => Panic m
  end.

Notation "'let!' x ':=' c 'in' k" := (obind c (fun x => k))
  (at level 10, x name, c at level 100, k at level 200).

(** The outcome is an error, not a value. *)
Definition surfaces_error {A : Type} (o : outcome A) : Prop :=
  match o with
  | Ret _ => False
  | Panic _ => True
  end.

(** Go's [error]. *)
Definition error : Type := option string.

(** [fmt.Sprintf] with a [%d] verb on an [int]. *)
Definition fmt_d (z : Z) : string := NilZero.string_of_int (Z.to_int z).

Definition newline : string := String (ascii_of_nat 10) EmptyString.

(* ===================================================================== *)
(** ** auto_player_config.go: the configuration file *)
(* ===================================================================== *)

Module ConfigFile.

Record AutoPlayerConfigFile : Type := {
  Enabled : bool;
  AutoDiscard : bool;
  AutoMeld : bool;
  AutoRiichi : bool;
  AutoAgari : bool;
  MinConfidence : float64;
  DefenseThreshold : float64;
  DelaySeconds : float64;
  ConfirmActions : bool;
  Strategy : string
}.

Definition validStrategies : list string := ["aggressive"; "balanced"; "defensive"].

(** The loop over [validStrategies] that sets [valid]. *)
Fixpoint strategy_listed (s : string) (l : list string) : bool :=
  match l with
  | [] => false
  | x :: l' => if String.eqb s x then true else strategy_listed s l'
  end.

Definition errMinConfidence : string := "最小置信度必须在 0.0 到 1.0 之间".
Definition errDefenseThreshold : string := "防守阈值必须在 0.0 到 1.0 之间".
Definition errDelaySeconds : string := "延迟时间必须在 0.0 到 10.0 秒之间".
Definition errStrategy : string :=
  "策略必须是以下之一: " ++ "[aggressive balanced defensive]".

Definition validateConfig (config : AutoPlayerConfigFile) : error :=
  if lt (MinConfidence config) (of_Z 0) || gt (MinConfidence config) (of_Z 1)
  then Some errMinConfidence
  else if lt (DefenseThreshold config) (of_Z 0) || gt (DefenseThreshold config) (of_Z 1)
  then Some errDefenseThreshold
  else if lt (DelaySeconds config) (of_Z 0) || gt (DelaySeconds config) (of_Z 10)
  then Some errDelaySeconds
  else if negb (strategy_listed (Strategy config) validStrategies)
  then Some errStrategy
  else None.

(** No numeric field is NaN: what decoding a JSON number yields. *)
Definition numeric (config : AutoPlayerConfigFile) : Prop :=
  is_nan (MinConfidence config) = false
  /\ is_nan (DefenseThreshold config) = false
  /\ is_nan (DelaySeconds config) = false.

(** The declared ranges of the data model. *)
Definition in_range (config : AutoPlayerConfigFile) : Prop :=
  within (of_Z 0) (of_Z 1) (MinConfidence config) = true
  /\ within (of_Z 0) (of_Z 1) (DefenseThreshold config) = true
  /\ within (of_Z 0) (of_Z 10) (DelaySeconds config) = true
  /\ In (Strategy config) validStrategies.

End ConfigFile.

(* ===================================================================== *)
(** ** The automatic player: data *)
(* ===================================================================== *)

Module AutoPlayer.

Record AutoPlayerConfig : Type := {
  Enabled : bool;
  AutoDiscard : bool;
  AutoMeld : bool;
  AutoRiichi : bool;
  AutoAgari : bool;
  MinConfidence : float64;
  DefenseThreshold : float64;
  DelaySeconds : float64;
  ConfirmActions : bool;
  Strategy : string
}.

Definition defaultAutoPlayerConfig : AutoPlayerConfig := {|
  Enabled := false;
  AutoDiscard := true;
  AutoMeld := false;
  AutoRiichi := false;
  AutoAgari := true;
  MinConfidence := of_ratio 7 10;
  DefenseThreshold := of_ratio 15 100;
  DelaySeconds := of_Z 1;
  ConfirmActions := true;
  Strategy := "balanced"
|}.

Record Decision : Type := {
  Action : string;
  Tile : Z;
  Confidence : float64;
  Reason : string
}.

(** [model.PlayerInfo], the fields this code touches. *)
Record PlayerInfo : Type := {
  HandTiles34 : list Z;
  LeftTiles34 : list Z;
  NumRedFives : list Z;
  DiscardTiles : list Z
}.

(** Modelled from the spec: [util.Hand13AnalysisResult] and
    [util.Hand14AnalysisResult] are declared outside the sources.  A discard
    candidate carries a discard tile index, a wait count and scoring values;
    the fields are the ones the decision code reads. *)
Record Hand13AnalysisResult : Type := {
  Shanten : Z;
  Waits_AllCount : Z;
  DamaPoint : Z;
  AvgImproveWaitsCount : Z
}.

Record Hand14AnalysisResult : Type := {
  DiscardTile : Z;
  Result13 : Hand13AnalysisResult
}.

Definition Hand14AnalysisResultList : Type := list Hand14AnalysisResult.

(** Modelled from the spec: the declaration of [riskTable] is outside the
    sources.  A mapping from tile index to a risk score, or absent: a slice
    of [float64] that may be [nil] ([None]). *)
Definition riskTable : Type := option (list float64).

(** [mixedRiskTable[tile]]: indexing a slice, which panics out of range. *)
Definition riskAt (t : riskTable) (tile : Z) : outcome float64 :=
  match t with
  | None => Panic "index out of range"
  | Some l =>
      if tile <? 0 then Panic "index out of range"
      else match nth_error l (Z.to_nat tile) with
           | Some r => Ret r
           | None => Panic "index out of range"
           end
  end.

(** Modelled from the spec: [util.CountOfTiles34] is outside the sources; it
    is the number of tiles in the hand, the sum of the 34 counts. *)
Definition CountOfTiles34 (tiles34 : list Z) : Z := fold_left Z.add tiles34 0.

(** What the decision code takes from the [util] package, from [fmt]'s float
    verbs and from the risk table's methods, none of which is among the
    sources. *)
Class Collaborators : Type := {
  (** [util.MahjongZH[tile]], the display name of a tile *)
  MahjongZH : Z -> string;
  (** [fmt.Sprintf("%.2f", x)] and [fmt.Sprintf("%.1f", x)] *)
  fmt_2f : float64 -> string;
  fmt_1f : float64 -> string;
  (** shanten, results14, incShantenResults14 *)
  CalculateShantenWithImproves14 :
    PlayerInfo -> Z * Hand14AnalysisResultList * Hand14AnalysisResultList;
  (** [util.CalculateMeld(playerInfo, targetTile, isRedFive, allowChi)] *)
  CalculateMeld :
    PlayerInfo -> Z -> bool -> bool ->
    Z * Hand14AnalysisResultList * Hand14AnalysisResultList;
  (** [mixedRiskTable.getBestDefenceTile(tiles34)] *)
  getBestDefenceTile : riskTable -> list Z -> Z
}.

(** The tile of index [t] is in the hand and the table gives it risk [r]. *)
Definition held_risk (table : list float64) (hand : list Z) (t : nat) (r : float64)
  : Prop :=
  exists count, nth_error hand t = Some count /\ count > 0 /\ nth_error table t = Some r.

Definition no_tile_held (hand : list Z) : Prop :=
  forall t count, nth_error hand t = Some count -> count <= 0.

(* ===================================================================== *)
(** ** The automatic player: decisions *)
(* ===================================================================== *)

Section Decide.

Context `{ext : Collaborators}.

(** [ap.config] *)
Variable config : AutoPlayerConfig.

(** The body of the [range] loop of [assessDangerLevel]: [tile] is the index
    of the first count of [counts]. *)
Fixpoint assessDangerLoop (mixedRiskTable : riskTable) (counts : list Z)
  (tile : Z) (maxRisk : float64) : outcome float64 :=
  match counts with
  | [] => Ret maxRisk
  | count :: rest =>
      if count >? 0 then
        let! risk := riskAt mixedRiskTable tile in
        assessDangerLoop mixedRiskTable rest (tile + 1)
          (if gt risk maxRisk then risk else maxRisk)
      else assessDangerLoop mixedRiskTable rest (tile + 1) maxRisk
  end.

Definition assessDangerLevel (mixedRiskTable : riskTable) (playerInfo : PlayerInfo)
  : outcome float64 :=
  match mixedRiskTable with
  | None => Ret zero
  | Some _ => assessDangerLoop mixedRiskTable (HandTiles34 playerInfo) 0 zero
  end.

Definition noCandidate : Decision :=
  {| Action := "pass"; Tile := 0; Confidence := zero; Reason := "无法找到合适切牌" |}.

Definition aggressiveDiscardDecision (playerInfo : PlayerInfo)
  (results14 incShantenResults14 : Hand14AnalysisResultList)
  (dangerLevel : float64) : outcome Decision :=
  match results14 with
  | best :: _ =>
      Ret {| Action := "discard";
             Tile := DiscardTile best;
             Confidence := of_ratio 9 10;
             Reason := "进攻切牌：" ++ MahjongZH (DiscardTile best)
                       ++ " (进张" ++ fmt_d (Waits_AllCount (Result13 best))
                       ++ ", 打点" ++ fmt_d (DamaPoint (Result13 best)) ++ ")" |}
  | [] =>
      match incShantenResults14 with
      | best :: _ =>
          Ret {| Action := "discard";
                 Tile := DiscardTile best;
                 Confidence := of_ratio 7 10;
                 Reason := "向听倒退切牌：" ++ MahjongZH (DiscardTile best)
                           ++ " (改良后进张"
                           ++ fmt_d (AvgImproveWaitsCount (Result13 best)) ++ ")" |}
      | [] => Ret noCandidate
      end
  end.

(** The guarded block shared by the defensive and the balanced policy:
    [Some] is its [return], [None] is falling out of the [if]. *)
Definition defenceBranch (playerInfo : PlayerInfo) (mixedRiskTable : riskTable)
  (dangerLevel : float64) : outcome (option Decision) :=
  if gt dangerLevel (DefenseThreshold config) then
    let safestTile := getBestDefenceTile mixedRiskTable (HandTiles34 playerInfo) in
    if safestTile >=? 0 then
      let! risk := riskAt mixedRiskTable safestTile in
      Ret (Some {| Action := "discard";
                   Tile := safestTile;
                   Confidence := of_ratio 8 10;
                   Reason := "防守切牌：" ++ MahjongZH safestTile
                             ++ " (危险度" ++ fmt_2f risk ++ ")" |})
    else Ret None
  else Ret None.

(** The rest of [balancedDiscardDecision], after the guarded block. *)
Definition balancedOffence (results14 : Hand14AnalysisResultList)
  (dangerLevel : float64) : Decision :=
  match results14 with
  | best :: _ =>
      let confidence := of_ratio 85 100 in
      let confidence :=
        if gt dangerLevel (of_ratio 1 10) then mul confidence (of_ratio 8 10)
        else confidence in
      {| Action := "discard";
         Tile := DiscardTile best;
         Confidence := confidence;
         Reason := "平衡切牌：" ++ MahjongZH (DiscardTile best)
                   ++ " (进张" ++ fmt_d (Waits_AllCount (Result13 best))
                   ++ ", 打点" ++ fmt_d (DamaPoint (Result13 best)) ++ ")" |}
  | [] => noCandidate
  end.

Definition balancedDiscardDecision (playerInfo : PlayerInfo)
  (results14 incShantenResults14 : Hand14AnalysisResultList)
  (mixedRiskTable : riskTable) (dangerLevel : float64) : outcome Decision :=
  let! defence := defenceBranch playerInfo mixedRiskTable dangerLevel in
  match defence with
  | Some d => Ret d
  | None => Ret (balancedOffence results14 dangerLevel)
  end.

Definition defensiveDiscardDecision (playerInfo : PlayerInfo)
  (mixedRiskTable : riskTable) (dangerLevel : float64) : outcome Decision :=
  let! defence := defenceBranch playerInfo mixedRiskTable dangerLevel in
  match defence with
  | Some d => Ret d
  | None => balancedDiscardDecision playerInfo [] [] mixedRiskTable dangerLevel
  end.

Definition makeDiscardDecision (playerInfo : PlayerInfo) (mixedRiskTable : riskTable)
  : outcome Decision :=
  let '(shanten, results14, incShantenResults14) :=
    CalculateShantenWithImproves14 playerInfo in
  let! dangerLevel := assessDangerLevel mixedRiskTable playerInfo in
  if String.eqb (Strategy config) "aggressive" then
    aggressiveDiscardDecision playerInfo results14 incShantenResults14 dangerLevel
  else if String.eqb (Strategy config) "defensive" then
    defensiveDiscardDecision playerInfo mixedRiskTable dangerLevel
  else
    balancedDiscardDecision playerInfo results14 incShantenResults14
      mixedRiskTable dangerLevel.

Definition makeMeldDecision (playerInfo : PlayerInfo) (targetTile : Z)
  (mixedRiskTable : riskTable) : outcome Decision :=
  if negb (AutoMeld config) then
    Ret {| Action := "pass"; Tile := 0; Confidence := zero;
           Reason := "自动鸣牌已禁用" |}
  else
    let '(shanten, results14, _) := CalculateMeld playerInfo targetTile false true in
    match results14 with
    | best :: _ =>
        Ret {| Action := "meld";
               Tile := targetTile;
               Confidence := of_ratio 75 100;
               Reason := "鸣牌：" ++ MahjongZH targetTile
                         ++ " (向听" ++ fmt_d (Shanten (Result13 best))
                         ++ ", 进张" ++ fmt_d (Waits_AllCount (Result13 best))
                         ++ ")" |}
    | [] =>
        Ret {| Action := "pass"; Tile := 0; Confidence := zero;
               Reason := "鸣牌效果不佳" |}
    end.

Definition MakeDecision (playerInfo : PlayerInfo) (mixedRiskTable : riskTable)
  (targetTile : Z) (canMeld : bool) : outcome Decision :=
  if negb (Enabled config) then
    Ret {| Action := "pass"; Tile := 0; Confidence := zero;
           Reason := "自动出牌已禁用" |}
  else
    let phases :=
      let handCount := CountOfTiles34 (HandTiles34 playerInfo) in
      if Z.rem handCount 3 =? 1 then
        makeDiscardDecision playerInfo mixedRiskTable
      else if Z.rem handCount 3 =? 2 then
        if canMeld && negb (targetTile =? -1) then
          makeMeldDecision playerInfo targetTile mixedRiskTable
        else makeDiscardDecision playerInfo mixedRiskTable
      else
        Ret {| Action := "pass"; Tile := 0; Confidence := zero;
               Reason := "无有效操作" |} in
    if Z.rem (CountOfTiles34 (HandTiles34 playerInfo)) 3 =? 1 then
      let '(shanten, results14, _) := CalculateShantenWithImproves14 playerInfo in
      if shanten =? -1 then
        Ret {| Action := "agari"; Tile := 0; Confidence := of_Z 1;
               Reason := "已和牌" |}
      else phases
    else phases.

End Decide.

(** A decision the data model allows the engine to return: one of the four
    actions it knows, with a confidence in [[0,1]]. *)
Definition sound_decision (d : Decision) : Prop :=
  In (Action d) ["pass"; "agari"; "discard"; "meld"]
  /\ within (of_Z 0) (of_Z 1) (Confidence d) = true.

End AutoPlayer.

(* ===================================================================== *)
(** ** The automatic player: executing a decision *)
(* ===================================================================== *)

Module Execution.

Import AutoPlayer.

Inductive Color : Type := FgHiGreen | FgHiYellow | FgHiRed.

(** What a run does to the outside, in order. *)
Inductive event : Type :=
| Stdout (s : string)
| Stderr (s : string)
| ColorStdout (c : Color) (s : string)
| Sleep (nanoseconds : float64)
| CallSendDiscard (tile34 : Z)
| CallSendMeld (meldType targetTile : Z) (combination : list Z)
| CallSendRiichi
| CallSendAgari
| CallSendPass.

(** A call of a method of the action channel. *)
Definition is_dispatch (e : event) : bool :=
  match e with
  | CallSendDiscard _ | CallSendMeld _ _ _
  | CallSendRiichi | CallSendAgari | CallSendPass => true
  | _ => false
  end.

(** The lines still to be read from standard input, and what was done so far. *)
Record World : Type := {
  stdin : list string;
  trace : list event
}.

(** Effectful code: a state monad over the world. *)
Definition M (A : Type) : Type := World -> A * World.

Definition ret {A : Type} (a : A) : M A := fun w => (a, w).

Definition bind {A B : Type} (m : M A) (k : A -> M B) : M B :=
  fun w => let '(a, w') := m w in k a w'.

Notation "x <- c ;; k" := (bind c (fun x => k))
  (at level 61, c at next level, right associativity).
Notation "c ;;; k" := (bind c (fun _ => k))
  (at level 61, right associativity).

Definition emit (e : event) : M unit :=
  fun w => (tt, {| stdin := stdin w; trace := (trace w ++ [e])%list |}).

(** [fmt.Scanln(&response)] into an empty string: the next line's word, and
    the string is left empty at the end of the input. *)
Definition Scanln : M string :=
  fun w =>
    match stdin w with
    | [] => ("", w)
    | r :: rest => (r, {| stdin := rest; trace := trace w |})
    end.

(** The interface [ActionSenderInterface]; each method returns an [error]. *)
Class ActionSenderInterface : Type := {
  SendDiscard : Z -> error;
  SendMeld : Z -> Z -> list Z -> error;
  SendRiichi : error;
  SendAgari : error;
  SendPass : error
}.

(** No method of the action sender is called in [shown]. *)
Definition quiet (shown : list event) : Prop :=
  Forall (fun e => is_dispatch e = false) shown.

(** The answer to the confirmation prompt is not a "y". *)
Definition rejects (w : World) : Prop :=
  hd "" (stdin w) <> "y" /\ hd "" (stdin w) <> "Y".

(** The answer to the confirmation prompt is a "y". *)
Definition accepts (w : World) : Prop :=
  hd "" (stdin w) = "y" \/ hd "" (stdin w) = "Y".

(** The calls of the action sender in [shown]. *)
Definition dispatches (shown : list event) : list event := filter is_dispatch shown.

Section Execute.

Context `{ext : Collaborators}.

(** [ap.config] and the global [globalActionSender], [None] when unset. *)
Variable config : AutoPlayerConfig.
Variable globalActionSender : option ActionSenderInterface.

Definition displayDecision (decision : Decision) : M unit :=
  let actionColor := FgHiGreen in
  let actionColor :=
    if lt (Confidence decision) (of_ratio 8 10) then FgHiYellow else actionColor in
  let actionColor :=
    if lt (Confidence decision) (of_ratio 6 10) then FgHiRed else actionColor in
  emit (ColorStdout actionColor ("🤖 自动出牌: " ++ Action decision)) ;;;
  (if Tile decision >=? 0
   then emit (Stdout (" " ++ MahjongZH (Tile decision)))
   else ret tt) ;;;
  emit (Stdout (" (置信度: " ++ fmt_1f (mul (Confidence decision) (of_Z 100)) ++ "%)")) ;;;
  emit (Stdout (newline ++ "    理由: " ++ Reason decision)) ;;;
  emit (Stdout newline).

Definition confirmAction (decision : Decision) : M bool :=
  emit (Stdout "确认执行此操作? (y/N): ") ;;;
  response <- Scanln ;;
  ret (String.eqb response "y" || String.eqb response "Y").

Definition executeDiscard (tile : Z) : M error :=
  match globalActionSender with
  | Some sender => emit (CallSendDiscard tile) ;;; ret (@SendDiscard sender tile)
  | None => emit (Stdout ("模拟执行切牌: " ++ MahjongZH tile ++ newline)) ;;; ret None
  end.

Definition executeMeld (tile : Z) : M error :=
  match globalActionSender with
  | Some sender =>
      emit (CallSendMeld 1 tile [tile; tile; tile]) ;;;
      ret (@SendMeld sender 1 tile [tile; tile; tile])
  | None => emit (Stdout ("模拟执行鸣牌: " ++ MahjongZH tile ++ newline)) ;;; ret None
  end.

Definition executeAgari : M error :=
  match globalActionSender with
  | Some sender => emit CallSendAgari ;;; ret (@SendAgari sender)
  | None => emit (Stdout ("模拟执行和牌" ++ newline)) ;;; ret None
  end.

Definition executeRiichi : M error :=
  match globalActionSender with
  | Some sender => emit CallSendRiichi ;;; ret (@SendRiichi sender)
  | None => emit (Stdout ("模拟执行立直" ++ newline)) ;;; ret None
  end.

Definition errCancelled : string := "用户取消操作".

(** The part of [ExecuteDecision] after the confirmation. *)
Definition delayAndDispatch (decision : Decision) : M error :=
  (if gt (DelaySeconds config) (of_Z 0)
   then emit (Sleep (mul (DelaySeconds config) (of_Z 1000000000)))
   else ret tt) ;;;
  if String.eqb (Action decision) "discard" then executeDiscard (Tile decision)
  else if String.eqb (Action decision) "meld" then executeMeld (Tile decision)
  else if String.eqb (Action decision) "agari" then executeAgari
  else if String.eqb (Action decision) "riichi" then executeRiichi
  else ret (Some ("未知操作类型: " ++ Action decision)).

Definition ExecuteDecision (decision : Decision) : M error :=
  if String.eqb (Action decision) "pass" then ret None
  else
    displayDecision decision ;;;
    if ConfirmActions config then
      confirmed <- confirmAction decision ;;
      if negb confirmed then ret (Some errCancelled)
      else delayAndDispatch decision
    else delayAndDispatch decision.

End Execute.

End Execution.

(* ===================================================================== *)
(** ** auto_player_config.go: the configuration store *)
(* ===================================================================== *)

Module Store.

Import AutoPlayer.
Import ConfigFile.

(** The file [./auto_player_config.json] and the faults the operating system
    may answer with. *)
Record FileSystem : Type := {
  file : option string;
  readFault : error;
  mkdirFault : error;
  writeFault : error
}.

(** The process-wide state: the variable [autoPlayerConfig], which
    [globalAutoPlayer.config] points to, and the file system. *)
Record Globals : Type := {
  autoPlayerConfig : AutoPlayerConfig;
  fs : FileSystem
}.

(** [globalAutoPlayer.config] is [&autoPlayerConfig]: the same cell. *)
Definition globalAutoPlayer_config (g : Globals) : AutoPlayerConfig :=
  autoPlayerConfig g.

(** [encoding/json], on the configuration file's structure. *)
Class Json : Type := {
  Unmarshal : string -> AutoPlayerConfigFile + string;
  MarshalIndent : AutoPlayerConfigFile -> string + string
}.

Definition SetAutoPlayerConfig (config : AutoPlayerConfig) (g : Globals) : Globals :=
  {| autoPlayerConfig := config; fs := fs g |}.

Definition GetAutoPlayerConfig (g : Globals) : AutoPlayerConfig :=
  autoPlayerConfig g.

Definition SetAutoPlayerEnabled (enabled : bool) (g : Globals) : Globals :=
  let c := autoPlayerConfig g in
  {| autoPlayerConfig :=
       {| AutoPlayer.Enabled := enabled;
          AutoPlayer.AutoDiscard := AutoPlayer.AutoDiscard c;
          AutoPlayer.AutoMeld := AutoPlayer.AutoMeld c;
          AutoPlayer.AutoRiichi := AutoPlayer.AutoRiichi c;
          AutoPlayer.AutoAgari := AutoPlayer.AutoAgari c;
          AutoPlayer.MinConfidence := AutoPlayer.MinConfidence c;
          AutoPlayer.DefenseThreshold := AutoPlayer.DefenseThreshold c;
          AutoPlayer.DelaySeconds := AutoPlayer.DelaySeconds c;
          AutoPlayer.ConfirmActions := AutoPlayer.ConfirmActions c;
          AutoPlayer.Strategy := AutoPlayer.Strategy c |};
     fs := fs g |}.

(** The field-by-field copy "应用配置". *)
Definition applied (configFile : AutoPlayerConfigFile) : AutoPlayerConfig :=
  {| AutoPlayer.Enabled := ConfigFile.Enabled configFile;
     AutoPlayer.AutoDiscard := ConfigFile.AutoDiscard configFile;
     AutoPlayer.AutoMeld := ConfigFile.AutoMeld configFile;
     AutoPlayer.AutoRiichi := ConfigFile.AutoRiichi configFile;
     AutoPlayer.AutoAgari := ConfigFile.AutoAgari configFile;
     AutoPlayer.MinConfidence := ConfigFile.MinConfidence configFile;
     AutoPlayer.DefenseThreshold := ConfigFile.DefenseThreshold configFile;
     AutoPlayer.DelaySeconds := ConfigFile.DelaySeconds configFile;
     AutoPlayer.ConfirmActions := ConfigFile.ConfirmActions configFile;
     AutoPlayer.Strategy := ConfigFile.Strategy configFile |}.

(** The copy in the other direction, in [SaveAutoPlayerConfig]. *)
Definition persisted (config : AutoPlayerConfig) : AutoPlayerConfigFile :=
  {| ConfigFile.Enabled := AutoPlayer.Enabled config;
     ConfigFile.AutoDiscard := AutoPlayer.AutoDiscard config;
     ConfigFile.AutoMeld := AutoPlayer.AutoMeld config;
     ConfigFile.AutoRiichi := AutoPlayer.AutoRiichi config;
     ConfigFile.AutoAgari := AutoPlayer.AutoAgari config;
     ConfigFile.MinConfidence := AutoPlayer.MinConfidence config;
     ConfigFile.DefenseThreshold := AutoPlayer.DefenseThreshold config;
     ConfigFile.DelaySeconds := AutoPlayer.DelaySeconds config;
     ConfigFile.ConfirmActions := AutoPlayer.ConfirmActions config;
     ConfigFile.Strategy := AutoPlayer.Strategy config |}.

Definition defaultConfigFile : AutoPlayerConfigFile := {|
  ConfigFile.Enabled := false;
  ConfigFile.AutoDiscard := true;
  ConfigFile.AutoMeld := false;
  ConfigFile.AutoRiichi := false;
  ConfigFile.AutoAgari := true;
  ConfigFile.MinConfidence := of_ratio 7 10;
  ConfigFile.DefenseThreshold := of_ratio 15 100;
  ConfigFile.DelaySeconds := of_Z 1;
  ConfigFile.ConfirmActions := true;
  ConfigFile.Strategy := "balanced"
|}.

Section Persist.

Context `{json : Json}.

(** [os.MkdirAll] then [ioutil.WriteFile] of [data], with the messages of the
    caller. *)
Definition writeConfig (errMkdir errWrite : string) (data : string) (g : Globals)
  : error * Globals :=
  match mkdirFault (fs g) with
  | Some err => (Some (errMkdir ++ err), g)
  | None =>
      match writeFault (fs g) with
      | Some err => (Some (errWrite ++ err), g)
      | None =>
          (None,
           {| autoPlayerConfig := autoPlayerConfig g;
              fs := {| file := Some data;
                       readFault := readFault (fs g);
                       mkdirFault := mkdirFault (fs g);
                       writeFault := writeFault (fs g) |} |})
      end
  end.

Definition SaveAutoPlayerConfig (g : Globals) : error * Globals :=
  let config := GetAutoPlayerConfig g in
  match MarshalIndent (persisted config) with
  | inr err => (Some ("序列化配置失败: " ++ err), g)
  | inl data => writeConfig "创建配置目录失败: " "写入配置文件失败: " data g
  end.

Definition SaveDefaultConfig (g : Globals) : error * Globals :=
  match MarshalIndent defaultConfigFile with
  | inr err => (Some ("序列化默认配置失败: " ++ err), g)
  | inl data =>
      match writeConfig "创建配置目录失败: " "写入默认配置文件失败: " data g with
      | (Some err, g') => (Some err, g')
      | (None, g') => (None, SetAutoPlayerConfig (applied defaultConfigFile) g')
      end
  end.

Definition LoadAutoPlayerConfig (g : Globals) : error * Globals :=
  match file (fs g) with
  | None => SaveDefaultConfig g
  | Some content =>
      match readFault (fs g) with
      | Some err => (Some ("读取配置文件失败: " ++ err), g)
      | None =>
          match Unmarshal content with
          | inr err => (Some ("解析配置文件失败: " ++ err), g)
          | inl configFile =>
              match validateConfig configFile with
              | Some err => (Some ("配置文件验证失败: " ++ err), g)
              | None => (None, SetAutoPlayerConfig (applied configFile) g)
              end
          end
      end
  end.

Definition ResetAutoPlayerConfig (g : Globals) : error * Globals :=
  SaveDefaultConfig g.

End Persist.

End Store.

(* ===================================================================== *)
(** ** platform/majsoul/action_sender.go *)
(* ===================================================================== *)

Module Majsoul.

Definition ActionTypeChi : Z := 1.
Definition ActionTypePon : Z := 2.
Definition ActionTypeKan : Z := 3.
Definition ActionTypeRiichi : Z := 4.
Definition ActionTypeAgari : Z := 5.
Definition ActionTypePass : Z := 6.

(** The field [Type] is [Type_] here. *)
Record ActionRequest : Type := {
  Type_ : Z;
  Tile : string;
  Combination : string;
  Pass : bool;
  Timestamp : Z
}.

(** A JSON object as [json.Marshal] writes it: the members in order. *)
Inductive json_value : Type :=
| JNumber (z : Z)
| JString (s : string)
| JBool (b : bool).

Definition json_object : Type := list (string * json_value).

(** [json.Marshal] of an [ActionRequest], following the field tags:
    [omitempty] drops an empty string and a false boolean. *)
Definition json_Marshal (req : ActionRequest) : json_object + string :=
  inl ([("type", JNumber (Type_ req))]
       ++ (if String.eqb (Tile req) "" then [] else [("tile", JString (Tile req))])
       ++ (if String.eqb (Combination req) "" then []
           else [("combination", JString (Combination req))])
       ++ (if Pass req then [("pass", JBool true)] else [])
       ++ [("timestamp", JNumber (Timestamp req))])%list.

(** An HTTP POST as it leaves the process. *)
Record HttpPost : Type := {
  url : string;
  contentType : string;
  body : json_object
}.

(** The sender: its server and, for [as.client], what the network answers to
    a POST: a status code or a transport error. *)
Record ActionSender : Type := {
  serverURL : string;
  client_Post : HttpPost -> Z + string
}.

Definition StatusOK : Z := 200.

Definition Tile34ToMajsoulStr (tile34 : Z) : string :=
  if (tile34 <? 0) || (tile34 >? 33) then ""
  else
    let suits := ["m"; "p"; "s"; "z"] in
    let suit := Z.quot tile34 9 in
    let number := Z.rem tile34 9 in
    if suit =? 3 then fmt_d (number + 1) ++ "z"
    else fmt_d (number + 1) ++ nth (Z.to_nat suit) suits "".

Fixpoint joinParts (i : nat) (parts : list string) (result : string) : string :=
  match parts with
  | [] => result
  | part :: rest =>
      joinParts (S i) rest
        ((if Nat.ltb 0 i then result ++ "|" else result) ++ part)
  end.

Definition formatCombination (tiles : list Z) : string :=
  let parts := map Tile34ToMajsoulStr tiles in
  joinParts 0 parts "".

(** [sendAction] returns its error together with the POSTs it made. *)
Definition sendAction (sender : ActionSender) (req : ActionRequest)
  : error * list HttpPost :=
  match json_Marshal req with
  | inr err => (Some ("序列化操作请求失败: " ++ err), [])
  | inl data =>
      let post := {| url := serverURL sender ++ "/action";
                     contentType := "application/json";
                     body := data |} in
      match client_Post sender post with
      | inr err => (Some ("发送操作失败: " ++ err), [post])
      | inl statusCode =>
          if negb (statusCode =? StatusOK)
          then (Some ("服务器返回错误状态码: " ++ fmt_d statusCode), [post])
          else (None, [post])
      end
  end.

(** [now] is [time.Now().UnixMilli()]. *)
Definition SendDiscard (sender : ActionSender) (now : Z) (tile34 : Z)
  : error * list HttpPost :=
  let tileStr := Tile34ToMajsoulStr tile34 in
  let req := {| Type_ := ActionTypePass; Tile := ""; Combination := "";
                Pass := false; Timestamp := now |} in
  sendAction sender req.

Definition SendMeld (sender : ActionSender) (now : Z) (meldType targetTile : Z)
  (combination : list Z) : error * list HttpPost :=
  let send actionType :=
    sendAction sender
      {| Type_ := actionType;
         Tile := Tile34ToMajsoulStr targetTile;
         Combination := formatCombination combination;
         Pass := false;
         Timestamp := now |} in
  if meldType =? 0 then send ActionTypeChi
  else if meldType =? 1 then send ActionTypePon
  else if meldType =? 2 then send ActionTypeKan
  else (Some ("未知的鸣牌类型: " ++ fmt_d meldType), []).

Definition SendRiichi (sender : ActionSender) (now : Z) : error * list HttpPost :=
  sendAction sender
    {| Type_ := ActionTypeRiichi; Tile := ""; Combination := "";
       Pass := false; Timestamp := now |}.

Definition SendAgari (sender : ActionSender) (now : Z) : error * list HttpPost :=
  sendAction sender
    {| Type_ := ActionTypeAgari; Tile := ""; Combination := "";
       Pass := false; Timestamp := now |}.

Definition SendPass (sender : ActionSender) (now : Z) : error * list HttpPost :=
  sendAction sender
    {| Type_ := ActionTypePass; Tile := ""; Combination := "";
       Pass := true; Timestamp := now |}.

End Majsoul.

(* ===================================================================== *)
(** ** The interactive loop *)
(* ===================================================================== *)

Module Interact.

Import AutoPlayer.
Import Execution.

(** What the loop calls and the sources do not contain. *)
Class Console : Type := {
  debugMode : bool;
  HumanTilesInfo : Type;
  analysisHumanTiles : HumanTilesInfo -> PlayerInfo + string;
  (** tile and isRedFive, or an error *)
  StrToTile34 : string -> (Z * bool) + string;
  handleAutoPlayerCommand : string -> bool;
  (** the text [printAutoPlayerHelp] prints *)
  autoPlayerHelp : string;
  analysisPlayerWithRisk : PlayerInfo -> error
}.

(** [l[i]] and [l[i] = f(l[i])] on a slice; both panic out of range. *)
Definition index (l : list Z) (i : Z) : outcome Z :=
  if i <? 0 then Panic "index out of range"
  else match nth_error l (Z.to_nat i) with
       | Some v => Ret v
       | None => Panic "index out of range"
       end.

Fixpoint set_nth (l : list Z) (n : nat) (v : Z) : list Z :=
  match l, n with
  | [], _ => []
  | _ :: l', O => v :: l'
  | x :: l', S n' => x :: set_nth l' n' v
  end.

Definition update (l : list Z) (i : Z) (f : Z -> Z) : outcome (list Z) :=
  let! v := index l i in Ret (set_nth l (Z.to_nat i) (f v)).

Definition isSpace (c : ascii) : bool :=
  let n := nat_of_ascii c in
  Nat.eqb n 32 || (Nat.leb 9 n && Nat.leb n 13).

Fixpoint trimLeft (s : string) : string :=
  match s with
  | EmptyString => EmptyString
  | String c s' => if isSpace c then trimLeft s' else s
  end.

Fixpoint trimRight (s : string) : string :=
  match s with
  | EmptyString => EmptyString
  | String c s' =>
      let t := trimRight s' in
      if isSpace c && String.eqb t "" then "" else String c t
  end.

(** [strings.TrimSpace], on the ASCII white space. *)
Definition TrimSpace (s : string) : string := trimRight (trimLeft s).

(** [fmt.Println] *)
Definition Println (s : string) : M unit := emit (Stdout (s ++ newline)).

(** How one command or one turn of the loop ends. *)
Inductive handled : Type :=
| Handled (b : bool)
| OsExit (code : Z).

Inductive flow : Type :=
| Continue (playerInfo : PlayerInfo) (tile : string)
| Return (err : error)
| Exit (code : Z)
| Panicked (msg : string).

(** How [interact] ends; [Running] is the loop still going when the model's
    fuel is used up. *)
Inductive result : Type :=
| Returned (err : error)
| Exited (code : Z)
| Crashed (msg : string)
| Running (playerInfo : PlayerInfo) (tile : string).

Section Loop.

Context `{console : Console}.

Definition handleSpecialCommands (input : string) : M handled :=
  let input := TrimSpace input in
  if String.eqb input "help" then
    Println "💡 可用命令:" ;;;
    Println "  help         - 显示此帮助" ;;;
    Println "  auto-help    - 显示自动出牌帮助" ;;;
    Println "  quit/exit    - 退出交互模式" ;;;
    Println "  牌名         - 输入牌名进行摸牌或切牌" ;;;
    Println "               例如: 1m, 2p, 3s, 1z" ;;;
    Println "" ;;;
    ret (Handled true)
  else if String.eqb input "auto-help" then
    emit (Stdout autoPlayerHelp) ;;; ret (Handled true)
  else if String.eqb input "quit" || String.eqb input "exit" then
    Println "👋 退出交互模式" ;;; ret (OsExit 0)
  else if String.prefix "auto-" input then
    ret (Handled (handleAutoPlayerCommand input))
  else ret (Handled false).

(** [fmt.Scanf("%s\n", &tile)]: the variable keeps its value at the end of
    the input. *)
Definition Scanf (tile : string) : M string :=
  fun w =>
    match stdin w with
    | [] => (tile, w)
    | r :: rest => (r, {| stdin := rest; trace := trace w |})
    end.

(** The statement after the [switch]. *)
Definition analyse (playerInfo : PlayerInfo) (tile : string) : M flow :=
  match analysisPlayerWithRisk playerInfo with
  | Some err => emit (Stderr (err ++ newline)) ;;; ret (Continue playerInfo tile)
  | None => ret (Continue playerInfo tile)
  end.

(** [case 1]: a tile is drawn.  [tiles34] and [leftTiles34] alias the slices
    of [playerInfo]. *)
Definition draw (playerInfo : PlayerInfo) (tile : string) : M flow :=
  emit (Stdout "> 摸 ") ;;;
  tile <- Scanf tile ;;
  special <- handleSpecialCommands tile ;;
  match special with
  | OsExit code => ret (Exit code)
  | Handled true => ret (Continue playerInfo tile)
  | Handled false =>
      match StrToTile34 tile with
      | inr err => emit (Stderr (err ++ newline)) ;;; ret (Continue playerInfo tile)
      | inl (tile34, isRedFive) =>
          match index (HandTiles34 playerInfo) tile34 with
          | Panic msg => ret (Panicked msg)
          | Ret held =>
              if held =? 4 then
                emit (Stderr ("不可能摸更多的牌了" ++ newline)) ;;;
                ret (Continue playerInfo tile)
              else
                match
                  (let! reds :=
                     if isRedFive
                     then update (NumRedFives playerInfo) (Z.quot tile34 9) Z.succ
                     else Ret (NumRedFives playerInfo) in
                   let! left := update (LeftTiles34 playerInfo) tile34 Z.pred in
                   let! hand := update (HandTiles34 playerInfo) tile34 Z.succ in
                   Ret {| HandTiles34 := hand; LeftTiles34 := left;
                          NumRedFives := reds;
                          DiscardTiles := DiscardTiles playerInfo |})
                with
                | Panic msg => ret (Panicked msg)
                | Ret playerInfo' => analyse playerInfo' tile
                end
          end
      end
  end.

(** [case 2]: a tile is discarded. *)
Definition discard (playerInfo : PlayerInfo) (tile : string) : M flow :=
  emit (Stdout "> 切 ") ;;;
  tile <- Scanf tile ;;
  special <- handleSpecialCommands tile ;;
  match special with
  | OsExit code => ret (Exit code)
  | Handled true => ret (Continue playerInfo tile)
  | Handled false =>
      match StrToTile34 tile with
      | inr err => emit (Stderr (err ++ newline)) ;;; ret (Continue playerInfo tile)
      | inl (tile34, isRedFive) =>
          match index (HandTiles34 playerInfo) tile34 with
          | Panic msg => ret (Panicked msg)
          | Ret held =>
              if held =? 0 then
                emit (Stderr ("切掉的牌不存在" ++ newline)) ;;;
                ret (Continue playerInfo tile)
              else
                match
                  (let! reds :=
                     if isRedFive
                     then update (NumRedFives playerInfo) (Z.quot tile34 9) Z.pred
                     else Ret (NumRedFives playerInfo) in
                   let! hand := update (HandTiles34 playerInfo) tile34 Z.pred in
                   Ret {| HandTiles34 := hand;
                          LeftTiles34 := LeftTiles34 playerInfo;
                          NumRedFives := reds;
                          DiscardTiles := (DiscardTiles playerInfo ++ [tile34])%list |})
                with
                | Panic msg => ret (Panicked msg)
                | Ret playerInfo' => analyse playerInfo' tile
                end
          end
      end
  end.

(** One turn of the [for] loop. *)
Definition iteration (playerInfo : PlayerInfo) (tile : string) : M flow :=
  let count := CountOfTiles34 (HandTiles34 playerInfo) in
  if Z.rem count 3 =? 0 then
    ret (Return (Some ("参数错误: " ++ fmt_d count ++ " 张牌")))
  else if Z.rem count 3 =? 1 then draw playerInfo tile
  else if Z.rem count 3 =? 2 then discard playerInfo tile
  else analyse playerInfo tile.

(** The loop, with the deferred [recover] of [interact]: outside the debug
    mode a panic is reported and [interact] returns [nil]. *)
Fixpoint loop (fuel : nat) (playerInfo : PlayerInfo) (tile : string) : M result :=
  match fuel with
  | O => ret (Running playerInfo tile)
  | S fuel' =>
      step <- iteration playerInfo tile ;;
      match step with
      | Continue playerInfo' tile' => loop fuel' playerInfo' tile'
      | Return err => ret (Returned err)
      | Exit code => ret (Exited code)
      | Panicked msg =>
          if negb debugMode
          then Println ("内部错误： " ++ msg) ;;; ret (Returned None)
          else ret (Crashed msg)
      end
  end.

Definition interact (fuel : nat) (humanTilesInfo : HumanTilesInfo) : M result :=
  match analysisHumanTiles humanTilesInfo with
  | inr err => ret (Returned (Some err))
  | inl playerInfo =>
      Println "💡 输入 'help' 查看帮助，'auto-help' 查看自动出牌帮助" ;;;
      loop fuel playerInfo ""
  end.

End Loop.

(** Every count of the hand is between 0 and 4. *)
Definition tiles_in_bounds (playerInfo : PlayerInfo) : Prop :=
  Forall (fun count => 0 <= count <= 4) (HandTiles34 playerInfo).

(** The tiles the loop keeps account of: in the hand, left to draw, and
    discarded. *)
Definition tilesAccounted (playerInfo : PlayerInfo) : Z :=
  CountOfTiles34 (HandTiles34 playerInfo)
  + CountOfTiles34 (LeftTiles34 playerInfo)
  + Z.of_nat (List.length (DiscardTiles playerInfo)).

End Interact.

(* ===================================================================== *)
(** ** Sample inputs *)
(* ===================================================================== *)

Module Examples.

Import AutoPlayer.

(** A hand of [n] different tiles, over the 34 tile indices. *)
Definition handOf (n : nat) : PlayerInfo :=
  {| HandTiles34 := (repeat 1 n ++ repeat 0 (34 - n))%list;
     LeftTiles34 := repeat 4 34;
     NumRedFives := [0; 0; 0];
     DiscardTiles := [] |}.

Definition candidate (tile waits : Z) : Hand14AnalysisResult :=
  {| DiscardTile := tile;
     Result13 := {| Shanten := 1; Waits_AllCount := waits; DamaPoint := 0;
                    AvgImproveWaitsCount := 0 |} |}.

(** The first tile index held, or -1. *)
Fixpoint firstHeld (tiles34 : list Z) (tile : Z) : Z :=
  match tiles34 with
  | [] => -1
  | count :: rest => if count >? 0 then tile else firstHeld rest (tile + 1)
  end.

(** Collaborators that report the given shanten and candidates. *)
Definition analysis (shanten : Z) (results14 : Hand14AnalysisResultList)
  : Collaborators :=
  {| MahjongZH := Majsoul.Tile34ToMajsoulStr;
     fmt_2f := fun _ => "0.00";
     fmt_1f := fun _ => "0.0";
     CalculateShantenWithImproves14 := fun _ => (shanten, results14, []);
     CalculateMeld := fun _ _ _ _ => (shanten, results14, []);
     getBestDefenceTile := fun _ tiles34 => firstHeld tiles34 0 |}.

Definition enabledConfig (strategy : string) (autoMeld : bool) : AutoPlayerConfig :=
  {| Enabled := true;
     AutoDiscard := true;
     AutoMeld := autoMeld;
     AutoRiichi := false;
     AutoAgari := true;
     MinConfidence := of_ratio 7 10;
     DefenseThreshold := of_ratio 15 100;
     DelaySeconds := of_Z 1;
     ConfirmActions := true;
     Strategy := strategy |}.

(** A table with the same risk for every tile. *)
Definition flatTable (risk : float64) : riskTable := Some (repeat risk 34).

(** A persisted configuration with a delay out of range. *)
Definition slowConfigFile : ConfigFile.AutoPlayerConfigFile :=
  {| ConfigFile.Enabled := true;
     ConfigFile.AutoDiscard := true;
     ConfigFile.AutoMeld := false;
     ConfigFile.AutoRiichi := false;
     ConfigFile.AutoAgari := true;
     ConfigFile.MinConfidence := of_ratio 7 10;
     ConfigFile.DefenseThreshold := of_ratio 15 100;
     ConfigFile.DelaySeconds := of_Z 60;
     ConfigFile.ConfirmActions := true;
     ConfigFile.Strategy := "balanced" |}.

(** A decoder that reads [slowConfigFile] from any file. *)
Definition slowJson : Store.Json :=
  {| Store.Unmarshal := fun _ => inl slowConfigFile;
     Store.MarshalIndent := fun _ => inl "{}" |}.

Definition slowGlobals : Store.Globals :=
  {| Store.autoPlayerConfig := defaultAutoPlayerConfig;
     Store.fs := {| Store.file := Some "{}"; Store.readFault := None;
                    Store.mkdirFault := None; Store.writeFault := None |} |}.

(** A console whose collaborators do nothing. *)
Definition quietConsole : Interact.Console :=
  {| Interact.debugMode := false;
     Interact.HumanTilesInfo := PlayerInfo;
     Interact.analysisHumanTiles := fun p => inl p;
     Interact.StrToTile34 := fun _ => inr "invalid tile";
     Interact.handleAutoPlayerCommand := fun _ => true;
     Interact.autoPlayerHelp := "";
     Interact.analysisPlayerWithRisk := fun _ => None |}.

(** A sender that always succeeds. *)
Definition okSender : Execution.ActionSenderInterface :=
  {| Execution.SendDiscard := fun _ => None;
     Execution.SendMeld := fun _ _ _ => None;
     Execution.SendRiichi := None;
     Execution.SendAgari := None;
     Execution.SendPass := None |}.

Definition answering (line : string) : Execution.World :=
  {| Execution.stdin := [line]; Execution.trace := [] |}.

Definition discardOf (tile : Z) : Decision :=
  {| Action := "discard"; Tile := tile; Confidence := of_ratio 85 100;
     Reason := "" |}.

Definition passDecision : Decision :=
  {| Action := "pass"; Tile := 0; Confidence := zero; Reason := "" |}.

(** A configuration that differs from [enabledConfig "balanced" false] in
    the settings the decision does not read, and in the strategy's name. *)
Definition otherConfig : AutoPlayerConfig :=
  {| Enabled := true;
     AutoDiscard := false;
     AutoMeld := false;
     AutoRiichi := true;
     AutoAgari := false;
     MinConfidence := of_Z 1;
     DefenseThreshold := of_ratio 15 100;
     DelaySeconds := zero;
     ConfirmActions := false;
     Strategy := "Balanced" |}.

(** A sender whose discard fails. *)
Definition failingSender : Execution.ActionSenderInterface :=
  {| Execution.SendDiscard := fun _ => Some "timeout";
     Execution.SendMeld := fun _ _ _ => None;
     Execution.SendRiichi := None;
     Execution.SendAgari := None;
     Execution.SendPass := None |}.

Definition kanDecision : Decision :=
  {| Action := "kan"; Tile := 4; Confidence := of_ratio 9 10; Reason := "" |}.

Definition riichiDecision : Decision :=
  {| Action := "riichi"; Tile := -1; Confidence := of_ratio 9 10; Reason := "" |}.

(** A server that answers every POST with status 200. *)
Definition localServer : Majsoul.ActionSender :=
  {| Majsoul.serverURL := "http://127.0.0.1:8080";
     Majsoul.client_Post := fun _ => inl 200 |}.

(** A decoder that reads the default configuration from any file. *)
Definition defaultJson : Store.Json :=
  {| Store.Unmarshal := fun _ => inl Store.defaultConfigFile;
     Store.MarshalIndent := fun _ => inl "{}" |}.

Definition noFileGlobals : Store.Globals :=
  {| Store.autoPlayerConfig := enabledConfig "aggressive" true;
     Store.fs := {| Store.file := None; Store.readFault := None;
                    Store.mkdirFault := None; Store.writeFault := None |} |}.

(** A console that knows the tiles "1m" and "9s". *)
Definition tileConsole : Interact.Console :=
  {| Interact.debugMode := false;
     Interact.HumanTilesInfo := PlayerInfo;
     Interact.analysisHumanTiles := fun p => inl p;
     Interact.StrToTile34 :=
       fun s => if String.eqb s "1m" then inl (0, false)
                else if String.eqb s "9s" then inl (26, false)
                else inr "invalid tile";
     Interact.handleAutoPlayerCommand := fun _ => true;
     Interact.autoPlayerHelp := "";
     Interact.analysisPlayerWithRisk := fun _ => None |}.

(** The input of two turns: "9s" is drawn, then "1m" is discarded. *)
Definition twoTurns : Execution.World :=
  {| Execution.stdin := ["9s"; "1m"]; Execution.trace := [] |}.

(** The player's tiles after these two turns from 13 tiles. *)
Definition afterTwoTurns : PlayerInfo :=
  {| HandTiles34 := (0 :: repeat 1 12 ++ repeat 0 13 ++ 1 :: repeat 0 7)%list;
     LeftTiles34 := (repeat 4 26 ++ 3 :: repeat 4 7)%list;
     NumRedFives := [0; 0; 0];
     DiscardTiles := [0] |}.

End Examples.

(* ===================================================================== *)
(** * Properties *)
(* ===================================================================== *)

(** ** The order of float64 *)

Module Float64Facts.

Lemma cmp3_Lt (p q : Z * Z * Z) : cmp3 p q = Lt <-> lt3 p q.
Proof.
  destruct p as [[a b] c], q as [[a' b'] c']; unfold cmp3, lt3.
  destruct (Z.compare_spec a a'), (Z.compare_spec b b'), (Z.compare_spec c c');
    split; intros; try discriminate; try lia; reflexivity.
Qed.

Lemma cmp3_Eq (p q : Z * Z * Z) : cmp3 p q = Eq <-> p = q.
Proof.
  destruct p as [[a b] c], q as [[a' b'] c']; unfold cmp3.
  destruct (Z.compare_spec a a'), (Z.compare_spec b b'), (Z.compare_spec c c');
    split; intros E; try discriminate; try reflexivity;
    try (inversion E; lia); subst; reflexivity.
Qed.

Lemma cmp3_Gt (p q : Z * Z * Z) : cmp3 p q = Gt <-> lt3 q p.
Proof.
  destruct p as [[a b] c], q as [[a' b'] c']; unfold cmp3, lt3.
  destruct (Z.compare_spec a a'), (Z.compare_spec b b'), (Z.compare_spec c c');
    split; intros; try discriminate; try lia; reflexivity.
Qed.

(** On numbers, [SFcompare] is the lexicographic comparison of the ranks. *)
Lemma SFcompare_rank (x y : float64) :
  is_nan x = false -> is_nan y = false ->
  SFcompare x y = Some (cmp3 (rank x) (rank y)).
Proof.
  destruct x as [sx | sx | | sx mx ex], y as [sy | sy | | sy my ey];
    simpl; intros Hx Hy; try discriminate;
    try (destruct sx); try (destruct sy); try reflexivity.
  unfold cmp3. change (-1 ?= -1) with Eq. cbv beta iota.
  rewrite Z.compare_opp, (Z.compare_antisym ex ey).
  destruct (ex ?= ey); reflexivity.
Qed.

Lemma le_numbers (a b : float64) :
  le a b = true -> is_nan a = false /\ is_nan b = false.
Proof.
  unfold le, SFleb. destruct a, b; simpl; intros H; try discriminate; auto.
Qed.

Lemma le_rank (a b : float64) :
  is_nan a = false -> is_nan b = false ->
  le a b = true <-> (lt3 (rank a) (rank b) \/ rank a = rank b).
Proof.
  intros Ha Hb. unfold le, SFleb. rewrite (SFcompare_rank a b Ha Hb).
  destruct (cmp3 (rank a) (rank b)) eqn:E.
  - apply cmp3_Eq in E. split; auto.
  - apply cmp3_Lt in E. split; auto.
  - apply cmp3_Gt in E. split; [discriminate|].
    destruct (rank a) as [[x y] z], (rank b) as [[x' y'] z']; unfold lt3 in *.
    intros [H | H]; [lia | inversion H; lia].
Qed.

Lemma lt_rank (a b : float64) :
  is_nan a = false -> is_nan b = false ->
  lt a b = true <-> lt3 (rank a) (rank b).
Proof.
  intros Ha Hb. unfold lt, SFltb. rewrite (SFcompare_rank a b Ha Hb).
  destruct (cmp3 (rank a) (rank b)) eqn:E.
  - apply cmp3_Eq in E. rewrite E. split; [discriminate|].
    destruct (rank b) as [[x y] z]; unfold lt3; lia.
  - apply cmp3_Lt in E. split; auto.
  - apply cmp3_Gt in E. split; [discriminate|].
    destruct (rank a) as [[x y] z], (rank b) as [[x' y'] z']; unfold lt3 in *; lia.
Qed.

Lemma lt3_total (p q : Z * Z * Z) : lt3 p q \/ p = q \/ lt3 q p.
Proof.
  destruct p as [[a b] c], q as [[a' b'] c']; unfold lt3.
  destruct (Z.lt_total a a') as [?|[?|?]]; [lia| |lia].
  destruct (Z.lt_total b b') as [?|[?|?]]; [lia| |lia].
  destruct (Z.lt_total c c') as [?|[?|?]]; [lia| |lia].
  subst; auto.
Qed.

(** [le] is transitive. *)
Lemma le_trans (a b c : float64) :
  le a b = true -> le b c = true -> le a c = true.
Proof.
  intros Hab Hbc.
  destruct (le_numbers _ _ Hab) as [Ha Hb], (le_numbers _ _ Hbc) as [_ Hc].
  apply (le_rank a b Ha Hb) in Hab. apply (le_rank b c Hb Hc) in Hbc.
  apply (le_rank a c Ha Hc).
  destruct (rank a) as [[x y] z], (rank b) as [[x' y'] z'],
    (rank c) as [[x'' y''] z'']; unfold lt3 in *.
  destruct Hab as [Hab | Hab], Hbc as [Hbc | Hbc];
    try (inversion Hab; subst); try (inversion Hbc; subst); auto; left; lia.
Qed.

(** Between numbers, "not greater" is "at most". *)
Lemma le_iff_not_gt (a b : float64) :
  is_nan a = false -> is_nan b = false -> le a b = negb (gt a b).
Proof.
  intros Ha Hb. unfold gt.
  destruct (le a b) eqn:L, (SFltb b a) eqn:G; try reflexivity; exfalso.
  - apply (le_rank a b Ha Hb) in L. apply (lt_rank b a Hb Ha) in G.
    destruct (rank a) as [[x y] z], (rank b) as [[x' y'] z']; unfold lt3 in *.
    destruct L as [L | L]; [lia | inversion L; lia].
  - assert (L' : ~ (lt3 (rank a) (rank b) \/ rank a = rank b)).
    { intros H. apply (le_rank a b Ha Hb) in H. congruence. }
    assert (G' : ~ lt3 (rank b) (rank a)).
    { intros H. apply (lt_rank b a Hb Ha) in H. unfold lt in H. congruence. }
    destruct (lt3_total (rank a) (rank b)) as [H | [H | H]]; auto.
Qed.

Lemma lt_le (a b : float64) : lt a b = true -> le a b = true.
Proof.
  unfold lt, le, SFltb, SFleb. destruct (SFcompare a b) as [[]|]; auto.
Qed.

Lemma eqb_le (a b : float64) : eqb a b = true -> le a b = true.
Proof.
  unfold eqb, le, SFeqb, SFleb. destruct (SFcompare a b) as [[]|]; auto.
Qed.

Lemma eqb_numbers (a b : float64) :
  eqb a b = true -> is_nan a = false /\ is_nan b = false.
Proof.
  intros H. apply le_numbers, eqb_le, H.
Qed.

(** Equal numbers: neither is greater than the other. *)
Lemma eqb_not_gt (a b : float64) : eqb a b = true -> gt a b = false.
Proof.
  intros H. destruct (eqb_numbers _ _ H) as [Ha Hb].
  unfold gt. destruct (SFltb b a) eqn:G; [exfalso | reflexivity].
  apply (lt_rank b a Hb Ha) in G.
  unfold eqb, SFeqb in H. rewrite (SFcompare_rank a b Ha Hb) in H.
  destruct (cmp3 (rank a) (rank b)) eqn:E; try discriminate.
  apply cmp3_Eq in E. rewrite E in G.
  destruct (rank b) as [[x y] z]; unfold lt3 in G; lia.
Qed.

(** The literals of the sources, as binary64 numbers. *)
Example literal_0_85 : of_ratio 85 100 = S754_finite false 7656119366529843 (-53).
Proof. vm_compute. reflexivity. Qed.

Example literal_0_8 : of_ratio 8 10 = S754_finite false 7205759403792794 (-53).
Proof. vm_compute. reflexivity. Qed.

Example literal_0_15 : of_ratio 15 100 = S754_finite false 5404319552844595 (-55).
Proof. vm_compute. reflexivity. Qed.

Example literal_1 : of_Z 1 = S754_finite false 4503599627370496 (-52).
Proof. vm_compute. reflexivity. Qed.

(** [0.85 * 0.8], the lowered confidence of the balanced policy. *)
Example lowered_confidence :
  mul (of_ratio 85 100) (of_ratio 8 10) = S754_finite false 6124895493223875 (-53).
Proof. vm_compute. reflexivity. Qed.

Lemma le_refl (a : float64) : is_nan a = false -> le a a = true.
Proof.
  intros Ha. apply (le_rank a a Ha Ha). auto.
Qed.

(** Membership in a closed interval, by the two tests of the validation. *)
Lemma within_tests (lo hi x : float64) :
  is_nan lo = false -> is_nan hi = false -> is_nan x = false ->
  within lo hi x = negb (lt x lo || gt x hi).
Proof.
  intros Hlo Hhi Hx. unfold within.
  rewrite (le_iff_not_gt lo x Hlo Hx), (le_iff_not_gt x hi Hx Hhi).
  unfold gt, lt. rewrite negb_orb. reflexivity.
Qed.

Lemma within_numbers (lo hi x : float64) :
  within lo hi x = true -> is_nan x = false.
Proof.
  unfold within. intros H. apply andb_prop in H. destruct H as [H _].
  apply le_numbers in H. tauto.
Qed.

End Float64Facts.

(** ** The decision engine *)

Module AutoPlayerFacts.

Import AutoPlayer.
Import Float64Facts.

Section Decisions.

Context `{ext : Collaborators}.

Variable config : AutoPlayerConfig.

(** C1. With the automatic player enabled, a hand whose tile count leaves
    remainder 1 modulo 3 and a reported shanten of -1, [MakeDecision]
    returns the decision "agari" with confidence 1.0, whatever the strategy,
    the danger table, the offered tile and the meld flag are. *)
Theorem MakeDecision_complete_hand_is_agari
  (playerInfo : PlayerInfo) (mixedRiskTable : riskTable)
  (targetTile : Z) (canMeld : bool) :
  Enabled config = true ->
  Z.rem (CountOfTiles34 (HandTiles34 playerInfo)) 3 = 1 ->
  fst (fst (CalculateShantenWithImproves14 playerInfo)) = -1 ->
  MakeDecision config playerInfo mixedRiskTable targetTile canMeld =
    Ret {| Action := "agari"; Tile := 0; Confidence := of_Z 1;
           Reason := "已和牌" |}.
Proof.
  intros Hon Hrem Hshanten. unfold MakeDecision.
  rewrite Hon, Hrem. cbn [negb Z.eqb Pos.eqb].
  destruct (CalculateShantenWithImproves14 playerInfo) as [[shanten results14] inc].
  cbn in Hshanten. subst shanten. reflexivity.
Qed.

(** Below or at the threshold the guarded block is not entered. *)
Lemma defenceBranch_not_greater
  (playerInfo : PlayerInfo) (mixedRiskTable : riskTable) (dangerLevel : float64) :
  gt dangerLevel (DefenseThreshold config) = false ->
  defenceBranch config playerInfo mixedRiskTable dangerLevel = Ret None.
Proof.
  intros H. unfold defenceBranch. rewrite H. reflexivity.
Qed.

(** What the defensive policy does when the danger is not greater than the
    threshold: it hands the balanced policy empty candidate lists, and the
    outcome is a pass. *)
Lemma defensiveDiscardDecision_not_greater
  (playerInfo : PlayerInfo) (mixedRiskTable : riskTable) (dangerLevel : float64) :
  gt dangerLevel (DefenseThreshold config) = false ->
  defensiveDiscardDecision config playerInfo mixedRiskTable dangerLevel =
    Ret noCandidate.
Proof.
  intros H. unfold defensiveDiscardDecision, balancedDiscardDecision.
  rewrite (defenceBranch_not_greater _ _ _ H). reflexivity.
Qed.

Lemma balancedDiscardDecision_not_greater
  (playerInfo : PlayerInfo) (results14 incShantenResults14 : Hand14AnalysisResultList)
  (mixedRiskTable : riskTable) (dangerLevel : float64) :
  gt dangerLevel (DefenseThreshold config) = false ->
  balancedDiscardDecision config playerInfo results14 incShantenResults14
    mixedRiskTable dangerLevel = Ret (balancedOffence results14 dangerLevel).
Proof.
  intros H. unfold balancedDiscardDecision.
  rewrite (defenceBranch_not_greater _ _ _ H). reflexivity.
Qed.

(** C6. When the danger level equals the defence threshold, the guarded
    defensive block is skipped for every hand and danger table: the balanced
    policy answers from the analysis results, and the defensive policy
    delegates. *)
Theorem threshold_equality_is_not_greater
  (playerInfo : PlayerInfo) (results14 incShantenResults14 : Hand14AnalysisResultList)
  (mixedRiskTable : riskTable) (dangerLevel : float64) :
  eqb dangerLevel (DefenseThreshold config) = true ->
  defenceBranch config playerInfo mixedRiskTable dangerLevel = Ret None
  /\ balancedDiscardDecision config playerInfo results14 incShantenResults14
       mixedRiskTable dangerLevel
     = Ret (match results14 with
            | best :: _ =>
                {| Action := "discard";
                   Tile := DiscardTile best;
                   Confidence :=
                     if gt dangerLevel (of_ratio 1 10)
                     then mul (of_ratio 85 100) (of_ratio 8 10)
                     else of_ratio 85 100;
                   Reason := Reason (balancedOffence results14 dangerLevel) |}
            | [] => noCandidate
            end)
  /\ defensiveDiscardDecision config playerInfo mixedRiskTable dangerLevel
     = balancedDiscardDecision config playerInfo [] [] mixedRiskTable dangerLevel.
Proof.
  intros Heq. apply eqb_not_gt in Heq.
  split; [| split].
  - apply defenceBranch_not_greater, Heq.
  - rewrite (balancedDiscardDecision_not_greater _ _ _ _ _ Heq).
    destruct results14 as [| best rest]; reflexivity.
  - rewrite (defensiveDiscardDecision_not_greater _ _ _ Heq),
      (balancedDiscardDecision_not_greater _ _ _ _ _ Heq).
    reflexivity.
Qed.

(** C3, as the code has it.  In the choice phase with a meld on offer, the
    answer is the one of [makeMeldDecision]: a pass with confidence 0 when
    automatic melds are off or the analysis after the meld is empty, and
    the meld of the offered tile with confidence 0.75 otherwise.  The discard
    decision is not consulted. *)
Theorem MakeDecision_meld_offer
  (playerInfo : PlayerInfo) (mixedRiskTable : riskTable) (targetTile : Z) :
  Enabled config = true ->
  Z.rem (CountOfTiles34 (HandTiles34 playerInfo)) 3 = 2 ->
  targetTile <> -1 ->
  let results14 := snd (fst (CalculateMeld playerInfo targetTile false true)) in
  MakeDecision config playerInfo mixedRiskTable targetTile true =
    makeMeldDecision config playerInfo targetTile mixedRiskTable
  /\ (AutoMeld config = false ->
      MakeDecision config playerInfo mixedRiskTable targetTile true =
        Ret {| Action := "pass"; Tile := 0; Confidence := zero;
               Reason := "自动鸣牌已禁用" |})
  /\ (AutoMeld config = true -> results14 = [] ->
      MakeDecision config playerInfo mixedRiskTable targetTile true =
        Ret {| Action := "pass"; Tile := 0; Confidence := zero;
               Reason := "鸣牌效果不佳" |})
  /\ (AutoMeld config = true -> results14 <> [] ->
      exists reason,
        MakeDecision config playerInfo mixedRiskTable targetTile true =
          Ret {| Action := "meld"; Tile := targetTile;
                 Confidence := of_ratio 75 100; Reason := reason |}).
Proof.
  intros Hon Hrem Htarget results14.
  assert (Hmeld : MakeDecision config playerInfo mixedRiskTable targetTile true =
                  makeMeldDecision config playerInfo targetTile mixedRiskTable).
  { unfold MakeDecision. rewrite Hon, Hrem. cbn [negb Z.eqb Pos.eqb andb].
    apply Z.eqb_neq in Htarget. rewrite Htarget. reflexivity. }
  split; [exact Hmeld |]. rewrite Hmeld. unfold makeMeldDecision. subst results14.
  destruct (CalculateMeld playerInfo targetTile false true) as [[shanten results] inc].
  cbn [fst snd].
  split; [| split].
  - intros Hoff. rewrite Hoff. reflexivity.
  - intros Hauto Hnone. rewrite Hauto, Hnone. reflexivity.
  - intros Hauto Hsome. rewrite Hauto. cbn [negb].
    destruct results as [| best rest]; [congruence |].
    eexists. reflexivity.
Qed.

(** With a tile count divisible by 3 the answer is an ordinary pass. *)
Lemma MakeDecision_remainder_0
  (playerInfo : PlayerInfo) (mixedRiskTable : riskTable)
  (targetTile : Z) (canMeld : bool) :
  Z.rem (CountOfTiles34 (HandTiles34 playerInfo)) 3 = 0 ->
  exists reason,
    MakeDecision config playerInfo mixedRiskTable targetTile canMeld =
      Ret {| Action := "pass"; Tile := 0; Confidence := zero; Reason := reason |}.
Proof.
  intros Hrem. unfold MakeDecision. rewrite Hrem. cbn [Z.eqb].
  destruct (Enabled config); cbn [negb]; eexists; reflexivity.
Qed.

End Decisions.

(** *** The danger level *)

Lemma riskAt_nth (l : list float64) (i : nat) (r : float64) :
  nth_error l i = Some r -> riskAt (Some l) (Z.of_nat i) = Ret r.
Proof.
  intros H. unfold riskAt.
  destruct (Z.ltb_spec (Z.of_nat i) 0) as [Hneg | _]; [lia |].
  rewrite Nat2Z.id, H. reflexivity.
Qed.

Lemma le_larger (r acc : float64) :
  is_nan r = false -> is_nan acc = false ->
  let acc' := if gt r acc then r else acc in
  le acc acc' = true /\ le r acc' = true /\ is_nan acc' = false.
Proof.
  intros Hr Hacc acc'. subst acc'. destruct (gt r acc) eqn:G.
  - repeat split; auto using le_refl. apply lt_le, G.
  - repeat split; auto using le_refl.
    rewrite (le_iff_not_gt r acc Hr Hacc), G. reflexivity.
Qed.

(** The loop returns an upper bound of the start value and of the risks of
    the tiles held, and this bound is one of them. *)
Lemma assessDangerLoop_spec (l : list float64) :
  forall (counts : list Z) (i : nat) (acc : float64),
    (i + List.length counts <= List.length l)%nat ->
    (forall k c r, nth_error counts k = Some c -> c > 0 ->
                   nth_error l (i + k) = Some r -> le zero r = true) ->
    is_nan acc = false ->
    exists m,
      assessDangerLoop (Some l) counts (Z.of_nat i) acc = Ret m
      /\ le acc m = true
      /\ (forall k c r, nth_error counts k = Some c -> c > 0 ->
                        nth_error l (i + k) = Some r -> le r m = true)
      /\ (m = acc \/
          exists k c, nth_error counts k = Some c /\ c > 0 /\
                      nth_error l (i + k) = Some m).
Proof.
  induction counts as [| c rest IH]; intros i acc Hlen Hpos Hacc.
  - exists acc. cbn. repeat split; auto using le_refl.
    intros k c r Hk. destruct k; discriminate.
  - cbn [List.length] in Hlen. cbn [assessDangerLoop].
    replace (Z.of_nat i + 1) with (Z.of_nat (S i)) by lia.
    assert (Hrest : forall k c' r, nth_error rest k = Some c' -> c' > 0 ->
                      nth_error l (S i + k) = Some r -> le zero r = true).
    { intros k c' r Hk Hc Hr. apply (Hpos (S k) c' r); auto.
      replace (i + S k)%nat with (S i + k)%nat by lia. exact Hr. }
    destruct (Z.gtb_spec c 0) as [Hc | Hc].
    + destruct (nth_error l i) as [r |] eqn:Hr.
      2:{ apply nth_error_None in Hr. lia. }
      rewrite (riskAt_nth l i r Hr). cbn [obind].
      assert (Hr0 : le zero r = true).
      { apply (Hpos 0%nat c r); auto; [lia |]. rewrite Nat.add_0_r. exact Hr. }
      destruct (le_numbers _ _ Hr0) as [_ Hrn].
      destruct (le_larger r acc Hrn Hacc) as (Ha & Hb & Hn).
      destruct (IH (S i) (if gt r acc then r else acc)) as (m & Hm & Hle & Hub & Hin);
        auto; [lia |].
      exists m. split; [exact Hm |]. split; [eapply le_trans; eauto |]. split.
      * intros k c' r' Hk Hc' Hr'. destruct k as [| k].
        -- rewrite Nat.add_0_r in Hr'. assert (r' = r) by congruence. subst r'.
           eapply le_trans; eauto.
        -- apply (Hub k c' r'); auto.
           replace (S i + k)%nat with (i + S k)%nat by lia. exact Hr'.
      * destruct Hin as [Hin | (k & c' & Hk & Hc' & Hr')].
        -- destruct (gt r acc); [| left; exact Hin].
           right. exists 0%nat, c. rewrite Nat.add_0_r. subst m. auto with zarith.
        -- right. exists (S k), c'.
           replace (i + S k)%nat with (S i + k)%nat by lia. auto.
    + destruct (IH (S i) acc) as (m & Hm & Hle & Hub & Hin); auto; [lia |].
      exists m. split; [exact Hm |]. split; [exact Hle |]. split.
      * intros k c' r' Hk Hc' Hr'. destruct k as [| k].
        -- cbn in Hk. assert (c' = c) by congruence. lia.
        -- apply (Hub k c' r'); auto.
           replace (S i + k)%nat with (i + S k)%nat by lia. exact Hr'.
      * destruct Hin as [Hin | (k & c' & Hk & Hc' & Hr')]; [left; exact Hin |].
        right. exists (S k), c'.
        replace (i + S k)%nat with (S i + k)%nat by lia. auto.
Qed.

Lemma held_or_not (hand : list Z) :
  no_tile_held hand \/ exists t count, nth_error hand t = Some count /\ count > 0.
Proof.
  induction hand as [| c rest IH].
  - left. intros t count H. destruct t; discriminate.
  - destruct (Z_gt_le_dec c 0) as [Hc | Hc].
    + right. exists 0%nat, c. auto.
    + destruct IH as [Hnone | (t & count & Ht & Hcount)].
      * left. intros t count H. destruct t as [| t].
        -- cbn in H. assert (count = c) by congruence. lia.
        -- apply (Hnone t count H).
      * right. exists (S t), count. auto.
Qed.

Lemma le_antisym_eqb (a b : float64) :
  le a b = true -> le b a = true -> eqb a b = true.
Proof.
  intros Hab Hba. destruct (le_numbers _ _ Hab) as [Ha Hb].
  apply (le_rank a b Ha Hb) in Hab. apply (le_rank b a Hb Ha) in Hba.
  unfold eqb, SFeqb. rewrite (SFcompare_rank a b Ha Hb).
  assert (E : rank a = rank b).
  { destruct (rank a) as [[x y] z], (rank b) as [[x' y'] z']; unfold lt3 in *.
    destruct Hab as [Hab | Hab]; [| exact Hab].
    destruct Hba as [Hba | Hba]; [lia | symmetry; exact Hba]. }
  apply cmp3_Eq in E. rewrite E. reflexivity.
Qed.

(** C5. [assessDangerLevel] returns the maximum of the risks of the tiles
    held, and 0 when there is no table or no tile is held; without a table
    nothing is indexed.  The table, when there is one, has an entry for every
    tile index of the hand, and the risks of the tiles held are at least 0,
    as risk scores are. *)
Theorem assessDangerLevel_is_max_risk
  (mixedRiskTable : riskTable) (playerInfo : PlayerInfo) :
  let hand := HandTiles34 playerInfo in
  (forall l, mixedRiskTable = Some l -> (List.length hand <= List.length l)%nat) ->
  (forall l t r, mixedRiskTable = Some l -> held_risk l hand t r ->
                 le zero r = true) ->
  exists maxRisk,
    assessDangerLevel mixedRiskTable playerInfo = Ret maxRisk
    /\ (mixedRiskTable = None -> maxRisk = zero)
    /\ (no_tile_held hand -> maxRisk = zero)
    /\ (forall l, mixedRiskTable = Some l ->
          (forall t r, held_risk l hand t r -> le r maxRisk = true)
          /\ (no_tile_held hand \/
              exists t r, held_risk l hand t r /\ eqb r maxRisk = true)).
Proof.
  intros hand Hcover Hrisk. unfold assessDangerLevel.
  destruct mixedRiskTable as [l |].
  2:{ exists zero. repeat split; auto; intros; discriminate. }
  fold hand.
  destruct (assessDangerLoop_spec l hand 0 zero) as (m & Hm & Hle & Hub & Hin).
  { cbn. apply Hcover. reflexivity. }
  { intros k c r Hk Hc Hr. apply (Hrisk l k r eq_refl). exists c. auto. }
  { reflexivity. }
  change (Z.of_nat 0) with 0 in Hm.
  assert (Hbound : forall t r, held_risk l hand t r -> le r m = true).
  { intros t r (c & Ht & Hc & Hr). apply (Hub t c r); auto. }
  exists m. split; [exact Hm |]. split; [intros; discriminate |]. split.
  - intros Hnone. destruct Hin as [Hin | (k & c & Hk & Hc & _)]; [exact Hin |].
    specialize (Hnone k c Hk). lia.
  - intros l' Hl'. injection Hl' as <-. split; [exact Hbound |].
    destruct Hin as [Hin | (k & c & Hk & Hc & Hr)].
    + destruct (held_or_not hand) as [Hnone | (t & c & Ht & Hc)]; [left; exact Hnone |].
      right. destruct (nth_error l t) as [r |] eqn:Hr.
      2:{ apply nth_error_None in Hr.
          assert (t < List.length hand)%nat by (apply nth_error_Some; congruence).
          specialize (Hcover l eq_refl). lia. }
      assert (Hheld : held_risk l hand t r) by (exists c; auto).
      exists t, r. split; [exact Hheld |]. subst m.
      apply le_antisym_eqb; [apply (Hbound t r Hheld) | apply (Hrisk l t r eq_refl Hheld)].
    + right. exists k, m. split; [exists c; auto |].
      apply le_antisym_eqb; apply le_refl;
        destruct (le_numbers _ _ Hle) as [_ Hn]; exact Hn.
Qed.

End AutoPlayerFacts.

(** ** The configuration *)

Module ConfigFacts.

Import ConfigFile.
Import Float64Facts.

Lemma strategy_listed_In (s : string) (l : list string) :
  strategy_listed s l = true <-> In s l.
Proof.
  induction l as [| x l IH]; cbn.
  - split; [discriminate | tauto].
  - destruct (String.eqb_spec s x) as [E | E].
    + split; auto.
    + rewrite IH. split; [auto | intros [H | H]; [congruence | exact H]].
Qed.

Lemma validateConfig_tests (config : AutoPlayerConfigFile) :
  numeric config ->
  validateConfig config =
    if negb (within (of_Z 0) (of_Z 1) (MinConfidence config))
    then Some errMinConfidence
    else if negb (within (of_Z 0) (of_Z 1) (DefenseThreshold config))
    then Some errDefenseThreshold
    else if negb (within (of_Z 0) (of_Z 10) (DelaySeconds config))
    then Some errDelaySeconds
    else if negb (strategy_listed (Strategy config) validStrategies)
    then Some errStrategy
    else None.
Proof.
  intros (Hmc & Hdt & Hds). unfold validateConfig.
  rewrite !within_tests by (assumption || reflexivity).
  rewrite !negb_involutive. reflexivity.
Qed.

(** C7. On configurations whose numeric fields are numbers, [validateConfig]
    returns no error exactly when MinConfidence and DefenseThreshold lie in
    [[0,1]], DelaySeconds in [[0,10]] and Strategy is one of the three
    names; otherwise the error is the one of the first field, in the order
    of the checks, that is out of range. *)
Theorem validateConfig_accepts_exactly_in_range (config : AutoPlayerConfigFile) :
  numeric config ->
  (validateConfig config = None <-> in_range config)
  /\ (within (of_Z 0) (of_Z 1) (MinConfidence config) = false ->
      validateConfig config = Some errMinConfidence)
  /\ (within (of_Z 0) (of_Z 1) (MinConfidence config) = true ->
      within (of_Z 0) (of_Z 1) (DefenseThreshold config) = false ->
      validateConfig config = Some errDefenseThreshold)
  /\ (within (of_Z 0) (of_Z 1) (MinConfidence config) = true ->
      within (of_Z 0) (of_Z 1) (DefenseThreshold config) = true ->
      within (of_Z 0) (of_Z 10) (DelaySeconds config) = false ->
      validateConfig config = Some errDelaySeconds)
  /\ (within (of_Z 0) (of_Z 1) (MinConfidence config) = true ->
      within (of_Z 0) (of_Z 1) (DefenseThreshold config) = true ->
      within (of_Z 0) (of_Z 10) (DelaySeconds config) = true ->
      ~ In (Strategy config) validStrategies ->
      validateConfig config = Some errStrategy).
Proof.
  intros Hnum. rewrite (validateConfig_tests config Hnum). unfold in_range.
  pose proof (strategy_listed_In (Strategy config) validStrategies) as Hin.
  destruct (within (of_Z 0) (of_Z 1) (MinConfidence config));
    destruct (within (of_Z 0) (of_Z 1) (DefenseThreshold config));
    destruct (within (of_Z 0) (of_Z 10) (DelaySeconds config));
    destruct (strategy_listed (Strategy config) validStrategies);
    cbn [negb]; repeat split; intros; try discriminate; try tauto;
    try (exfalso; intuition congruence).
Qed.

End ConfigFacts.

(** ** The configuration store *)

Module StoreFacts.

Import ConfigFile.
Import Store.

Section Loading.

Context `{json : Json}.

(** C8. When the persisted configuration is read and decoded but fails the
    validation, [LoadAutoPlayerConfig] returns the validation error and the
    process-wide state, the active configuration included, is as it was. *)
Theorem LoadAutoPlayerConfig_invalid_not_applied
  (g : Globals) (content : string) (configFile : AutoPlayerConfigFile)
  (err : string) :
  file (fs g) = Some content ->
  readFault (fs g) = None ->
  Unmarshal content = inl configFile ->
  validateConfig configFile = Some err ->
  LoadAutoPlayerConfig g = (Some ("配置文件验证失败: " ++ err), g)
  /\ GetAutoPlayerConfig (snd (LoadAutoPlayerConfig g)) = GetAutoPlayerConfig g.
Proof.
  intros Hfile Hread Hjson Hinvalid. unfold LoadAutoPlayerConfig.
  rewrite Hfile, Hread, Hjson, Hinvalid. split; reflexivity.
Qed.

End Loading.

End StoreFacts.

(** ** Executing a decision *)

Module ExecutionFacts.

Import AutoPlayer.
Import Execution.

Section Executing.

Context `{ext : Collaborators}.

Variable config : AutoPlayerConfig.
Variable globalActionSender : option ActionSenderInterface.

(** Displaying a decision only prints. *)
Lemma displayDecision_prints (decision : Decision) (w : World) :
  exists shown,
    displayDecision decision w =
      (tt, {| stdin := stdin w; trace := (trace w ++ shown)%list |})
    /\ quiet shown.
Proof.
  unfold displayDecision, bind, emit, ret.
  destruct (Tile decision >=? 0); cbn [stdin trace];
    rewrite <- ?app_assoc; cbn [app];
    eexists; (split; [reflexivity |]); repeat constructor.
Qed.

(** A rejected confirmation: the prompt is printed and one line is read. *)
Lemma confirmAction_rejected (decision : Decision) (w : World) :
  rejects w ->
  confirmAction decision w =
    (false, {| stdin := tl (stdin w);
               trace := (trace w ++ [Stdout "确认执行此操作? (y/N): "])%list |}).
Proof.
  intros [Hy HY]. apply String.eqb_neq in Hy, HY.
  unfold confirmAction, bind, emit, ret, Scanln. cbn [stdin trace].
  destruct (stdin w) as [| response rest]; cbn [hd tl] in *;
    rewrite Hy, HY; reflexivity.
Qed.

(** C9. A "pass" is executed by doing nothing: success, and the world is as
    it was.  For any other decision, with confirmation required and an
    answer other than "y" or "Y", [ExecuteDecision] returns the cancellation
    error, and what happened in between contains no call of the action
    sender. *)
Theorem ExecuteDecision_pass_and_rejection (decision : Decision) (w : World) :
  (Action decision = "pass" ->
   ExecuteDecision config globalActionSender decision w = (None, w))
  /\ (Action decision <> "pass" ->
      ConfirmActions config = true ->
      rejects w ->
      fst (ExecuteDecision config globalActionSender decision w) = Some errCancelled
      /\ exists shown,
           trace (snd (ExecuteDecision config globalActionSender decision w))
           = (trace w ++ shown)%list
           /\ quiet shown).
Proof.
  split.
  - intros Hpass. unfold ExecuteDecision. rewrite Hpass. reflexivity.
  - intros Hact Hconfirm Hreject. unfold ExecuteDecision.
    apply String.eqb_neq in Hact. rewrite Hact, Hconfirm.
    destruct (displayDecision_prints decision w) as (shown & Hshow & Hquiet).
    unfold bind. rewrite Hshow, confirmAction_rejected by exact Hreject.
    cbn [negb ret fst snd stdin trace]. split; [reflexivity |].
    exists (shown ++ [Stdout "确认执行此操作? (y/N): "])%list.
    split; [rewrite app_assoc; reflexivity |].
    apply Forall_app. split; [exact Hquiet | repeat constructor].
Qed.

End Executing.

End ExecutionFacts.

(** ** The Majsoul sender *)

Module MajsoulFacts.

Import Majsoul.

(** C10. Whatever tile is discarded, [SendDiscard] makes one POST to the
    action address whose body has the members "type", with value 6, and
    "timestamp" and no others; the result and the request are the same for
    every tile. *)
Theorem SendDiscard_same_request_for_every_tile
  (sender : ActionSender) (now : Z) (tile34 : Z) :
  snd (SendDiscard sender now tile34) =
    [{| url := serverURL sender ++ "/action";
        contentType := "application/json";
        body := [("type", JNumber 6); ("timestamp", JNumber now)] |}]
  /\ json_Marshal {| Type_ := ActionTypePass; Tile := ""; Combination := "";
                     Pass := false; Timestamp := now |}
     = inl [("type", JNumber 6); ("timestamp", JNumber now)]
  /\ forall other : Z,
       SendDiscard sender now other = SendDiscard sender now tile34.
Proof.
  split; [| split].
  - unfold SendDiscard, sendAction. cbn [json_Marshal].
    cbn -[String.append].
    destruct (client_Post sender _) as [status | err]; [| reflexivity].
    destruct (negb (status =? StatusOK)); reflexivity.
  - reflexivity.
  - intros other. reflexivity.
Qed.

End MajsoulFacts.

(** ** The interactive loop *)

Module InteractFacts.

Import AutoPlayer.
Import Execution.
Import Interact.

Section Phases.

Context `{ext : Collaborators}.
Context `{console : Console}.

Lemma iteration_remainder_0 (playerInfo : PlayerInfo) (tile : string) (w : World) :
  Z.rem (CountOfTiles34 (HandTiles34 playerInfo)) 3 = 0 ->
  iteration playerInfo tile w =
    (Return (Some ("参数错误: " ++ fmt_d (CountOfTiles34 (HandTiles34 playerInfo))
                   ++ " 张牌")), w).
Proof.
  intros Hrem. unfold iteration. rewrite Hrem. reflexivity.
Qed.

(** C4, as the code has it.  With a tile count divisible by 3, [MakeDecision]
    returns an ordinary decision, a pass with confidence 0; it is the
    interactive loop that returns an error for such a count, before it reads
    or changes anything. *)
Theorem remainder_0_pass_and_loop_error
  (config : AutoPlayerConfig) (playerInfo : PlayerInfo)
  (mixedRiskTable : riskTable) (targetTile : Z) (canMeld : bool)
  (fuel : nat) (tile : string) (w : World) :
  Z.rem (CountOfTiles34 (HandTiles34 playerInfo)) 3 = 0 ->
  (exists reason,
     MakeDecision config playerInfo mixedRiskTable targetTile canMeld =
       Ret {| Action := "pass"; Tile := 0; Confidence := zero; Reason := reason |})
  /\ loop (S fuel) playerInfo tile w =
       (Returned (Some ("参数错误: "
                        ++ fmt_d (CountOfTiles34 (HandTiles34 playerInfo))
                        ++ " 张牌")), w).
Proof.
  intros Hrem. split.
  - apply AutoPlayerFacts.MakeDecision_remainder_0, Hrem.
  - cbn [loop]. unfold bind. rewrite (iteration_remainder_0 _ _ _ Hrem). reflexivity.
Qed.

End Phases.

End InteractFacts.

(** ** The properties on sample inputs *)

Module Scenarios.

Import AutoPlayer.
Import Examples.

(** The player switched off answers with a pass. *)
Example disabled_player_passes :
  @MakeDecision (analysis (-1) [candidate 4 8]) defaultAutoPlayerConfig
    (handOf 13) None (-1) false
  = Ret {| Action := "pass"; Tile := 0; Confidence := zero;
           Reason := "自动出牌已禁用" |}.
Proof. vm_compute. reflexivity. Qed.

(** The aggressive strategy discards the first candidate, tile 4 with 8
    waits, with confidence 0.9. *)
Example aggressive_discards_first_candidate :
  @MakeDecision (analysis 1 [candidate 4 8; candidate 7 6])
    (enabledConfig "aggressive" false) (handOf 13) (flatTable (of_ratio 1 2))
    (-1) false
  = Ret {| Action := "discard"; Tile := 4; Confidence := of_ratio 9 10;
           Reason := "进攻切牌：5m (进张8, 打点0)" |}.
Proof. vm_compute. reflexivity. Qed.

(** The defensive strategy above the threshold discards the tile the table
    names, with confidence 0.8. *)
Example defensive_discards_safest :
  exists reason,
    @MakeDecision (analysis 1 [candidate 4 8]) (enabledConfig "defensive" false)
      (handOf 13) (flatTable (of_ratio 1 2)) (-1) false
    = Ret {| Action := "discard"; Tile := 0; Confidence := of_ratio 8 10;
             Reason := reason |}.
Proof. eexists. vm_compute. reflexivity. Qed.

(** Without a sender and without confirmation or delay, a riichi is only
    reported. *)
Example riichi_without_sender_is_simulated :
  @Execution.ExecuteDecision (analysis 1 [])
    {| Enabled := true; AutoDiscard := true; AutoMeld := false;
       AutoRiichi := true; AutoAgari := true; MinConfidence := of_ratio 7 10;
       DefenseThreshold := of_ratio 15 100; DelaySeconds := zero;
       ConfirmActions := false; Strategy := "balanced" |}
    None
    {| Action := "riichi"; Tile := -1; Confidence := of_ratio 9 10; Reason := "" |}
    (answering "")
  = (None,
     {| Execution.stdin := [""];
        Execution.trace :=
          [Execution.ColorStdout Execution.FgHiGreen "🤖 自动出牌: riichi";
           Execution.Stdout " (置信度: 0.0%)";
           Execution.Stdout (newline ++ "    理由: ");
           Execution.Stdout newline;
           Execution.Stdout ("模拟执行立直" ++ newline)] |}).
Proof. vm_compute. reflexivity. Qed.

(** The Majsoul names of some tiles and a combination. *)
Example majsoul_tile_names :
  map Majsoul.Tile34ToMajsoulStr [0; 8; 9; 26; 27; 33; 34; -1]
  = ["1m"; "9m"; "1p"; "9s"; "1z"; "7z"; ""; ""]
  /\ Majsoul.formatCombination [0; 1; 2] = "1m|2m|3m".
Proof. split; vm_compute; reflexivity. Qed.

(** The complete hand of 13 tiles under the defensive strategy and a risky
    table: the answer is "agari". *)
Lemma complete_hand_is_agari_witness :
  @MakeDecision (analysis (-1) []) (enabledConfig "defensive" false)
    (handOf 13) (flatTable (of_ratio 1 2)) (-1) false
  = Ret {| Action := "agari"; Tile := 0; Confidence := of_Z 1; Reason := "已和牌" |}.
Proof.
  apply (@AutoPlayerFacts.MakeDecision_complete_hand_is_agari (analysis (-1) []));
    reflexivity.
Defined.

(** C2, on the code.  Strategy "defensive", no danger table (danger level 0,
    below the threshold 0.15), 13 tiles in hand, one discard candidate, tile
    4: [MakeDecision] passes for want of a candidate, while under the
    strategy "balanced" the same inputs give the discard of tile 4 with
    confidence 0.85.  The defensive policy calls the balanced one with empty
    candidate lists. *)
Theorem defensive_low_danger_passes_despite_candidates :
  @MakeDecision (analysis 1 [candidate 4 8]) (enabledConfig "defensive" false)
    (handOf 13) None (-1) false
  = Ret {| Action := "pass"; Tile := 0; Confidence := zero;
           Reason := "无法找到合适切牌" |}
  /\ exists reason,
       @MakeDecision (analysis 1 [candidate 4 8]) (enabledConfig "balanced" false)
         (handOf 13) None (-1) false
       = Ret {| Action := "discard"; Tile := 4; Confidence := of_ratio 85 100;
                Reason := reason |}.
Proof.
  split; [vm_compute; reflexivity |]. eexists. vm_compute. reflexivity.
Qed.

(** C3 fails.  Choice phase (14 tiles), tile 5 on offer, automatic melds
    off, one discard candidate: [MakeDecision] passes, the discard decision
    for the same hand is the discard of tile 4, and the two differ. *)
Lemma declined_meld_is_pass_not_discard :
  @MakeDecision (analysis 1 [candidate 4 8]) (enabledConfig "balanced" false)
    (handOf 14) None 5 true
  = Ret {| Action := "pass"; Tile := 0; Confidence := zero;
           Reason := "自动鸣牌已禁用" |}
  /\ (exists reason,
        @makeDiscardDecision (analysis 1 [candidate 4 8])
          (enabledConfig "balanced" false) (handOf 14) None
        = Ret {| Action := "discard"; Tile := 4; Confidence := of_ratio 85 100;
                 Reason := reason |})
  /\ @MakeDecision (analysis 1 [candidate 4 8]) (enabledConfig "balanced" false)
       (handOf 14) None 5 true
     <> @makeDiscardDecision (analysis 1 [candidate 4 8])
          (enabledConfig "balanced" false) (handOf 14) None.
Proof.
  split; [reflexivity |]. split; [eexists; reflexivity |].
  vm_compute. discriminate.
Qed.

(** The meld offer with automatic melds on and a candidate after the meld. *)
Lemma meld_offer_witness :
  exists reason,
    @MakeDecision (analysis 1 [candidate 4 8]) (enabledConfig "balanced" true)
      (handOf 14) None 5 true
    = Ret {| Action := "meld"; Tile := 5; Confidence := of_ratio 75 100;
             Reason := reason |}.
Proof.
  destruct (@AutoPlayerFacts.MakeDecision_meld_offer (analysis 1 [candidate 4 8])
              (enabledConfig "balanced" true) (handOf 14) None 5
              eq_refl eq_refl ltac:(discriminate)) as (_ & _ & _ & Hmeld).
  apply Hmeld; [reflexivity | discriminate].
Defined.

(** C4 fails.  Twelve tiles in hand: the count is divisible by 3 and
    [MakeDecision] returns a decision, the pass, not an error. *)
Lemma remainder_0_is_an_ordinary_pass :
  Z.rem (CountOfTiles34 (HandTiles34 (handOf 12))) 3 = 0
  /\ @MakeDecision (analysis 1 []) (enabledConfig "balanced" false)
       (handOf 12) None (-1) false
     = Ret {| Action := "pass"; Tile := 0; Confidence := zero;
              Reason := "无有效操作" |}
  /\ ~ surfaces_error
         (@MakeDecision (analysis 1 []) (enabledConfig "balanced" false)
            (handOf 12) None (-1) false).
Proof.
  split; [reflexivity |]. split; [reflexivity |]. vm_compute. tauto.
Qed.

Lemma remainder_0_witness :
  Interact.loop (console := quietConsole) 1 (handOf 12) "" (answering "1m")
  = (Interact.Returned (Some "参数错误: 12 张牌"), answering "1m").
Proof.
  apply (@InteractFacts.remainder_0_pass_and_loop_error (analysis 1 []) quietConsole
           (enabledConfig "balanced" false) (handOf 12) None (-1) false
           0%nat "" (answering "1m") eq_refl).
Defined.

(** A table with risk 0.5 everywhere and 13 tiles in hand. *)
Lemma max_risk_witness :
  exists maxRisk,
    assessDangerLevel (flatTable (of_ratio 1 2)) (handOf 13) = Ret maxRisk
    /\ forall t r,
         held_risk (repeat (of_ratio 1 2) 34) (HandTiles34 (handOf 13)) t r ->
         le r maxRisk = true.
Proof.
  destruct (AutoPlayerFacts.assessDangerLevel_is_max_risk
              (flatTable (of_ratio 1 2)) (handOf 13)) as (m & Hm & _ & _ & Hmax).
  - intros l [= <-]. vm_compute. apply le_n.
  - intros l t r [= <-] (c & _ & _ & Hr).
    apply nth_error_In in Hr. apply (repeat_spec 34 (of_ratio 1 2) r) in Hr.
    subst r. reflexivity.
  - exists m. split; [exact Hm |]. apply (Hmax _ eq_refl).
Defined.

(** Danger level 0.15 against the default threshold 0.15. *)
Lemma threshold_equality_witness :
  @defenceBranch (analysis 1 [candidate 4 8]) (enabledConfig "balanced" false)
    (handOf 13) (flatTable (of_ratio 15 100)) (of_ratio 15 100)
  = Ret None.
Proof.
  apply (@AutoPlayerFacts.threshold_equality_is_not_greater
           (analysis 1 [candidate 4 8]) (enabledConfig "balanced" false)
           (handOf 13) [candidate 4 8] [] (flatTable (of_ratio 15 100))
           (of_ratio 15 100) eq_refl).
Defined.

(** The default configuration file is accepted. *)
Lemma validateConfig_witness :
  ConfigFile.validateConfig Store.defaultConfigFile = None.
Proof.
  apply (ConfigFacts.validateConfig_accepts_exactly_in_range Store.defaultConfigFile).
  - repeat split; reflexivity.
  - repeat split; try reflexivity. cbn. auto.
Defined.

(** A persisted delay of 60 seconds is rejected and nothing changes. *)
Lemma invalid_not_applied_witness :
  Store.LoadAutoPlayerConfig (json := slowJson) slowGlobals
  = (Some ("配置文件验证失败: " ++ ConfigFile.errDelaySeconds), slowGlobals)
  /\ Store.GetAutoPlayerConfig (snd (Store.LoadAutoPlayerConfig (json := slowJson) slowGlobals))
     = defaultAutoPlayerConfig.
Proof.
  apply (@StoreFacts.LoadAutoPlayerConfig_invalid_not_applied slowJson slowGlobals
           "{}" slowConfigFile ConfigFile.errDelaySeconds);
    reflexivity.
Defined.

(** A pass, and a discard answered "n" at the prompt. *)
Lemma pass_and_rejection_witness :
  @Execution.ExecuteDecision (analysis 1 []) (enabledConfig "balanced" false)
    (Some okSender) passDecision (answering "n")
  = (None, answering "n")
  /\ fst (@Execution.ExecuteDecision (analysis 1 []) (enabledConfig "balanced" false)
            (Some okSender) (discardOf 4) (answering "n"))
     = Some Execution.errCancelled.
Proof.
  split.
  - apply (@ExecutionFacts.ExecuteDecision_pass_and_rejection (analysis 1 [])
             (enabledConfig "balanced" false) (Some okSender) passDecision
             (answering "n")).
    reflexivity.
  - apply (@ExecutionFacts.ExecuteDecision_pass_and_rejection (analysis 1 [])
             (enabledConfig "balanced" false) (Some okSender) (discardOf 4)
             (answering "n")).
    + discriminate.
    + reflexivity.
    + split; discriminate.
Defined.

End Scenarios.

(** ** More on the Majsoul sender *)

Module MajsoulMore.

Import Majsoul.

Lemma tile_cases (t : Z) : 0 <= t <= 33 -> In t (map Z.of_nat (seq 0 34)).
Proof.
  intros H. apply in_map_iff. exists (Z.to_nat t). split; [lia |].
  apply in_seq. lia.
Qed.

(** X1. A tile index has a Majsoul name exactly when it lies in 0..33; outside,
    the name is the empty string. *)
Theorem Tile34ToMajsoulStr_empty_iff (tile34 : Z) :
  Tile34ToMajsoulStr tile34 = "" <-> (tile34 < 0 \/ tile34 > 33).
Proof.
  split.
  - intros Hempty.
    destruct (Z_lt_le_dec tile34 0) as [|Hlo]; [left; assumption |].
    destruct (Z_gt_le_dec tile34 33) as [|Hhi]; [right; assumption |].
    exfalso. pose proof (tile_cases tile34 (conj Hlo Hhi)) as Hin.
    cbn in Hin.
    repeat (destruct Hin as [<- | Hin]; [vm_compute in Hempty; discriminate |]).
    exact Hin.
  - intros Hout. unfold Tile34ToMajsoulStr.
    destruct (Z.ltb_spec tile34 0); [reflexivity |].
    destruct (Z.gtb_spec tile34 33); [reflexivity | lia].
Qed.

(** X2. Different tiles of 0..33 have different names. *)
Theorem Tile34ToMajsoulStr_injective (a b : Z) :
  0 <= a <= 33 -> 0 <= b <= 33 ->
  Tile34ToMajsoulStr a = Tile34ToMajsoulStr b -> a = b.
Proof.
  intros Ha Hb Heq.
  assert (Hall : forallb (fun x => forallb (fun y =>
            implb (String.eqb (Tile34ToMajsoulStr x) (Tile34ToMajsoulStr y))
                  (x =? y))
            (map Z.of_nat (seq 0 34))) (map Z.of_nat (seq 0 34)) = true)
    by (vm_compute; reflexivity).
  rewrite forallb_forall in Hall. specialize (Hall a (tile_cases a Ha)).
  rewrite forallb_forall in Hall. specialize (Hall b (tile_cases b Hb)).
  rewrite Heq, String.eqb_refl in Hall. cbn in Hall. apply Z.eqb_eq, Hall.
Qed.

Lemma append_assoc (a b c : string) : (a ++ b) ++ c = a ++ (b ++ c).
Proof.
  induction a as [| ch a IH]; cbn; [reflexivity | rewrite IH; reflexivity].
Qed.

Lemma joinParts_later (rest : list string) :
  forall (i : nat) (result part : string),
    (0 < i)%nat ->
    joinParts i rest (result ++ part) = result ++ String.concat "|" (part :: rest).
Proof.
  induction rest as [| next rest IH]; intros i result part Hi; [reflexivity |].
  cbn [joinParts]. destruct (Nat.ltb_spec 0 i) as [_ | Hle]; [| lia].
  rewrite (append_assoc result part "|").
  rewrite (IH (S i) (result ++ part ++ "|") next) by lia.
  change (String.concat "|" (part :: next :: rest))
    with (part ++ "|" ++ String.concat "|" (next :: rest)).
  rewrite !append_assoc. reflexivity.
Qed.

(** X3. [formatCombination] is the list of the tile names joined by "|": one
    separator between two neighbours, none at the ends, and the empty string
    for no tiles. *)
Theorem formatCombination_is_join (tiles : list Z) :
  formatCombination tiles = String.concat "|" (map Tile34ToMajsoulStr tiles).
Proof.
  unfold formatCombination. destruct tiles as [| tile rest]; [reflexivity |].
  cbn [map joinParts Nat.ltb Nat.leb].
  apply (joinParts_later (map Tile34ToMajsoulStr rest) 1 "" (Tile34ToMajsoulStr tile)).
  lia.
Qed.

(** X4. [sendAction] makes exactly one POST, to the action address of the server
    and with the JSON content type, and it returns no error exactly when the
    answer is status 200; any other status, 201 or 204 included, and any
    transport failure is an error. *)
Theorem sendAction_one_post_ok_iff_200 (sender : ActionSender) (req : ActionRequest) :
  exists data,
    json_Marshal req = inl data
    /\ snd (sendAction sender req) =
         [{| url := serverURL sender ++ "/action";
             contentType := "application/json";
             body := data |}]
    /\ (fst (sendAction sender req) = None <->
        client_Post sender {| url := serverURL sender ++ "/action";
                              contentType := "application/json";
                              body := data |} = inl 200).
Proof.
  unfold sendAction. destruct (json_Marshal req) as [data | err] eqn:Hjson;
    [| discriminate].
  exists data. split; [reflexivity |].
  destruct (client_Post sender _) as [status | err] eqn:Hpost.
  - unfold StatusOK. destruct (Z.eqb_spec status 200) as [-> | Hne]; cbn [negb fst snd].
    + repeat split; reflexivity.
    + repeat split; try reflexivity; [discriminate | intros [= E]; contradiction].
  - cbn [fst snd]. repeat split; try reflexivity; discriminate.
Qed.

(** X5. [SendMeld] refuses a meld type other than 0, 1 and 2 before anything is
    sent; for these three it posts the action types 1, 2 and 3. *)
Theorem SendMeld_types (sender : ActionSender) (now meldType targetTile : Z)
  (combination : list Z) :
  (meldType <> 0 -> meldType <> 1 -> meldType <> 2 ->
   SendMeld sender now meldType targetTile combination =
     (Some ("未知的鸣牌类型: " ++ fmt_d meldType), []))
  /\ (0 <= meldType <= 2 ->
      SendMeld sender now meldType targetTile combination =
        sendAction sender
          {| Type_ := meldType + 1;
             Tile := Tile34ToMajsoulStr targetTile;
             Combination := formatCombination combination;
             Pass := false;
             Timestamp := now |}).
Proof.
  unfold SendMeld. split.
  - intros H0 H1 H2. apply Z.eqb_neq in H0, H1, H2. rewrite H0, H1, H2. reflexivity.
  - intros Hrange.
    assert (Hcases : meldType = 0 \/ meldType = 1 \/ meldType = 2) by lia.
    destruct Hcases as [-> | [-> | ->]]; reflexivity.
Qed.

(** X6. The member "tile" of a meld request: present with the tile's name for a
    tile of 0..33, and left out, the request being sent all the same, for
    any other index. *)
Theorem SendMeld_tile_member (sender : ActionSender) (now meldType targetTile : Z)
  (combination : list Z) :
  0 <= meldType <= 2 ->
  exists post,
    snd (SendMeld sender now meldType targetTile combination) = [post]
    /\ (0 <= targetTile <= 33 ->
        In ("tile", JString (Tile34ToMajsoulStr targetTile)) (body post))
    /\ (targetTile < 0 \/ targetTile > 33 ->
        ~ In "tile" (map fst (body post))).
Proof.
  intros Hrange.
  destruct (SendMeld_types sender now meldType targetTile combination) as [_ Hsend].
  rewrite (Hsend Hrange).
  destruct (sendAction_one_post_ok_iff_200 sender
              {| Type_ := meldType + 1;
                 Tile := Tile34ToMajsoulStr targetTile;
                 Combination := formatCombination combination;
                 Pass := false;
                 Timestamp := now |}) as (data & Hdata & Hpost & _).
  eexists. split; [exact Hpost |]. cbn [body].
  unfold json_Marshal in Hdata. cbn [Type_ Tile Combination Pass Timestamp] in Hdata.
  injection Hdata as <-. split.
  - intros Hin.
    destruct (String.eqb_spec (Tile34ToMajsoulStr targetTile) "") as [E | _].
    + apply Tile34ToMajsoulStr_empty_iff in E. lia.
    + cbn. auto.
  - intros Hout. apply Tile34ToMajsoulStr_empty_iff in Hout. rewrite Hout.
    cbn [String.eqb app].
    destruct (String.eqb (formatCombination combination) "");
      cbn; intuition discriminate.
Qed.

End MajsoulMore.

(** ** More on executing a decision *)

Module ExecutionMore.

Import AutoPlayer.
Import Execution.
Import ExecutionFacts.

Section Dispatching.

Context `{ext : Collaborators}.

Variable config : AutoPlayerConfig.
Variable globalActionSender : option ActionSenderInterface.

Lemma confirmAction_accepted (decision : Decision) (w : World) :
  accepts w ->
  confirmAction decision w =
    (true, {| stdin := tl (stdin w);
              trace := (trace w ++ [Stdout "确认执行此操作? (y/N): "])%list |}).
Proof.
  intros Hyes. unfold accepts in Hyes.
  unfold confirmAction, bind, emit, ret, Scanln. cbn [stdin trace].
  destruct (stdin w) as [| response rest]; cbn [hd tl] in *;
    destruct Hyes as [E | E]; try discriminate; rewrite E; reflexivity.
Qed.

Lemma dispatches_app (a b : list event) :
  dispatches (a ++ b) = (dispatches a ++ dispatches b)%list.
Proof. apply filter_app. Qed.

Lemma dispatches_quiet (shown : list event) : quiet shown -> dispatches shown = [].
Proof.
  unfold quiet, dispatches. induction 1 as [| e l He _ IH]; [reflexivity |].
  cbn. rewrite He. exact IH.
Qed.

Lemma quiet_dispatches (shown : list event) : dispatches shown = [] -> quiet shown.
Proof.
  unfold quiet, dispatches. induction shown as [| e l IH]; [constructor |].
  cbn. destruct (is_dispatch e) eqn:He; [discriminate |].
  intros H. constructor; auto.
Qed.

(** Up to the dispatch: a decision that is not a pass, and is confirmed or
    needs no confirmation, reaches [delayAndDispatch] after printing only. *)
Lemma ExecuteDecision_proceeds (decision : Decision) (w : World) :
  Action decision <> "pass" ->
  (ConfirmActions config = false \/ accepts w) ->
  exists shown input,
    ExecuteDecision config globalActionSender decision w =
      delayAndDispatch config globalActionSender decision
        {| stdin := input; trace := (trace w ++ shown)%list |}
    /\ quiet shown.
Proof.
  intros Hact Hgo. unfold ExecuteDecision.
  apply String.eqb_neq in Hact. rewrite Hact.
  destruct (displayDecision_prints decision w) as (shown & Hshow & Hquiet).
  unfold bind at 1. rewrite Hshow.
  destruct (ConfirmActions config) eqn:Hconfirm.
  - destruct Hgo as [Hgo | Hyes]; [discriminate |].
    unfold bind. rewrite confirmAction_accepted by exact Hyes.
    cbn [negb stdin trace].
    exists (shown ++ [Stdout "确认执行此操作? (y/N): "])%list, (tl (stdin w)).
    split; [rewrite app_assoc; reflexivity |].
    apply Forall_app. split; [exact Hquiet | repeat constructor].
  - exists shown, (stdin w). split; [reflexivity | exact Hquiet].
Qed.

(** What [delayAndDispatch] adds to the trace, by action and sender. *)
Lemma delayAndDispatch_effect (decision : Decision) (w : World) :
  exists shown,
    stdin (snd (delayAndDispatch config globalActionSender decision w)) = stdin w
    /\ trace (snd (delayAndDispatch config globalActionSender decision w))
       = (trace w ++ shown)%list
    /\ match globalActionSender with
       | None =>
           dispatches shown = []
           /\ (In (Action decision) ["discard"; "meld"; "agari"; "riichi"] ->
               fst (delayAndDispatch config globalActionSender decision w) = None)
       | Some sender =>
           (Action decision = "discard" ->
            dispatches shown = [CallSendDiscard (Tile decision)]
            /\ fst (delayAndDispatch config globalActionSender decision w)
               = @SendDiscard sender (Tile decision))
           /\ (Action decision = "meld" ->
               dispatches shown =
                 [CallSendMeld 1 (Tile decision)
                    [Tile decision; Tile decision; Tile decision]]
               /\ fst (delayAndDispatch config globalActionSender decision w)
                  = @SendMeld sender 1 (Tile decision)
                      [Tile decision; Tile decision; Tile decision])
           /\ (Action decision = "agari" ->
               dispatches shown = [CallSendAgari]
               /\ fst (delayAndDispatch config globalActionSender decision w)
                  = @SendAgari sender)
           /\ (Action decision = "riichi" ->
               dispatches shown = [CallSendRiichi]
               /\ fst (delayAndDispatch config globalActionSender decision w)
                  = @SendRiichi sender)
       end
    /\ (~ In (Action decision) ["discard"; "meld"; "agari"; "riichi"] ->
        dispatches shown = []
        /\ fst (delayAndDispatch config globalActionSender decision w)
           = Some ("未知操作类型: " ++ Action decision)).
Proof.
  unfold delayAndDispatch, executeDiscard, executeMeld, executeAgari, executeRiichi,
    bind, emit, ret.
  destruct (gt (DelaySeconds config) (of_Z 0));
    destruct (String.eqb_spec (Action decision) "discard") as [Ed | Ed];
    [| destruct (String.eqb_spec (Action decision) "meld") as [Em | Em];
       [| destruct (String.eqb_spec (Action decision) "agari") as [Ea | Ea];
          [| destruct (String.eqb_spec (Action decision) "riichi") as [Er | Er]]]
     | | destruct (String.eqb_spec (Action decision) "meld") as [Em | Em];
       [| destruct (String.eqb_spec (Action decision) "agari") as [Ea | Ea];
          [| destruct (String.eqb_spec (Action decision) "riichi") as [Er | Er]]]];
    destruct globalActionSender as [sender |];
    cbn [fst snd stdin trace]; rewrite <- ?app_assoc; cbn [app];
    first [ exists []; split; [reflexivity | split; [symmetry; apply app_nil_r |]]
          | eexists; split; [reflexivity | split; [reflexivity |]] ];
    cbn [dispatches filter is_dispatch In];
    repeat split; intros; try reflexivity; try congruence;
    try (exfalso; intuition congruence).
Qed.

Lemma accepts_or_rejects (w : World) : accepts w \/ rejects w.
Proof.
  unfold accepts, rejects.
  destruct (String.eqb_spec (hd "" (stdin w)) "y"); [auto |].
  destruct (String.eqb_spec (hd "" (stdin w)) "Y"); auto.
Qed.

Lemma action_listed (a : string) :
  {In a ["discard"; "meld"; "agari"; "riichi"]}
  + {~ In a ["discard"; "meld"; "agari"; "riichi"]}.
Proof. apply in_dec, string_dec. Qed.

(** X7. [ExecuteDecision] calls the action sender at most once, and not at all
    when no sender is set. *)
Theorem ExecuteDecision_at_most_one_dispatch (decision : Decision) (w : World) :
  exists shown,
    trace (snd (ExecuteDecision config globalActionSender decision w))
    = (trace w ++ shown)%list
    /\ (List.length (dispatches shown) <= 1)%nat
    /\ (globalActionSender = None -> dispatches shown = []).
Proof.
  destruct (string_dec (Action decision) "pass") as [Hpass | Hact].
  { exists []. destruct (ExecuteDecision_pass_and_rejection config globalActionSender
                          decision w) as [Hnoop _].
    rewrite (Hnoop Hpass). cbn. rewrite app_nil_r. auto. }
  assert (Hcases : (ConfirmActions config = false \/ accepts w)
                   \/ (ConfirmActions config = true /\ rejects w)).
  { destruct (ConfirmActions config); [| auto].
    destruct (accepts_or_rejects w); auto. }
  destruct Hcases as [Hgo | [Hconfirm Hreject]].
  - destruct (ExecuteDecision_proceeds decision w Hact Hgo)
      as (pre & input & Hrun & Hpre).
    rewrite Hrun.
    destruct (delayAndDispatch_effect decision
                {| stdin := input; trace := (trace w ++ pre)%list |})
      as (post & _ & Htrace & Hsender & Hother).
    cbn [trace] in Htrace. exists (pre ++ post)%list.
    split; [rewrite Htrace, app_assoc; reflexivity |].
    rewrite dispatches_app, (dispatches_quiet pre Hpre). cbn [app].
    destruct (action_listed (Action decision)) as [Hin | Hout].
    + destruct globalActionSender as [sender |].
      * destruct Hsender as (Hd & Hm & Ha & Hr). cbn [In] in Hin.
        destruct Hin as [E | [E | [E | [E | []]]]]; symmetry in E;
          [destruct (Hd E) as [-> _] | destruct (Hm E) as [-> _]
          | destruct (Ha E) as [-> _] | destruct (Hr E) as [-> _]];
          (split; [cbn; lia | discriminate]).
      * destruct Hsender as [-> _]. split; [cbn; lia | reflexivity].
    + destruct (Hother Hout) as [-> _]. split; [cbn; lia | reflexivity].
  - destruct (ExecuteDecision_pass_and_rejection config globalActionSender
                decision w) as [_ Hcancel].
    destruct (Hcancel Hact Hconfirm Hreject) as (_ & shown & Htrace & Hquiet).
    exists shown. split; [exact Htrace |].
    rewrite (dispatches_quiet shown Hquiet). split; [cbn; lia | reflexivity].
Qed.

(** X8. An action other than "pass", "discard", "meld", "agari" and "riichi",
    once confirmed or when no confirmation is required, gives the
    unknown-action error carrying its name, with or without a sender, and
    the sender is not called. *)
Theorem ExecuteDecision_unknown_action (decision : Decision) (w : World) :
  ~ In (Action decision) ["pass"; "discard"; "meld"; "agari"; "riichi"] ->
  (ConfirmActions config = false \/ accepts w) ->
  fst (ExecuteDecision config globalActionSender decision w)
  = Some ("未知操作类型: " ++ Action decision)
  /\ exists shown,
       trace (snd (ExecuteDecision config globalActionSender decision w))
       = (trace w ++ shown)%list
       /\ quiet shown.
Proof.
  intros Hout Hgo.
  assert (Hact : Action decision <> "pass") by (cbn in Hout; intuition congruence).
  assert (Hout' : ~ In (Action decision) ["discard"; "meld"; "agari"; "riichi"])
    by (cbn in *; intuition congruence).
  destruct (ExecuteDecision_proceeds decision w Hact Hgo)
    as (pre & input & Hrun & Hpre).
  rewrite Hrun.
  destruct (delayAndDispatch_effect decision
              {| stdin := input; trace := (trace w ++ pre)%list |})
    as (post & _ & Htrace & _ & Hother).
  destruct (Hother Hout') as [Hnone Herr]. split; [exact Herr |].
  cbn [trace] in Htrace. exists (pre ++ post)%list.
  split; [rewrite Htrace, app_assoc; reflexivity |].
  apply Forall_app. split; [exact Hpre | apply quiet_dispatches, Hnone].
Qed.

End Dispatching.

Section Senders.

Context `{ext : Collaborators}.

Variable config : AutoPlayerConfig.

(** X9. With a sender set, a decision that is confirmed, or needs no
    confirmation, calls the method of its action once, and the method's
    result, error or not, is the result of [ExecuteDecision]; a meld is
    always sent as meld type 1 with the tile three times. *)
Theorem ExecuteDecision_surfaces_sender_result
  (sender : ActionSenderInterface) (decision : Decision) (w : World) :
  (ConfirmActions config = false \/ accepts w) ->
  exists shown,
    trace (snd (ExecuteDecision config (Some sender) decision w))
    = (trace w ++ shown)%list
    /\ (Action decision = "discard" ->
        dispatches shown = [CallSendDiscard (Tile decision)]
        /\ fst (ExecuteDecision config (Some sender) decision w)
           = @SendDiscard sender (Tile decision))
    /\ (Action decision = "meld" ->
        dispatches shown =
          [CallSendMeld 1 (Tile decision) [Tile decision; Tile decision; Tile decision]]
        /\ fst (ExecuteDecision config (Some sender) decision w)
           = @SendMeld sender 1 (Tile decision)
               [Tile decision; Tile decision; Tile decision])
    /\ (Action decision = "agari" ->
        dispatches shown = [CallSendAgari]
        /\ fst (ExecuteDecision config (Some sender) decision w) = @SendAgari sender)
    /\ (Action decision = "riichi" ->
        dispatches shown = [CallSendRiichi]
        /\ fst (ExecuteDecision config (Some sender) decision w) = @SendRiichi sender).
Proof.
  intros Hgo.
  destruct (string_dec (Action decision) "pass") as [Hpass | Hact].
  { exists []. rewrite app_nil_r.
    destruct (ExecuteDecision_pass_and_rejection config (Some sender) decision w)
      as [Hnoop _].
    rewrite (Hnoop Hpass). cbn [snd].
    repeat split; try reflexivity; intros; congruence. }
  destruct (ExecuteDecision_proceeds config (Some sender) decision w Hact Hgo)
    as (pre & input & Hrun & Hpre).
  rewrite Hrun.
  destruct (delayAndDispatch_effect config (Some sender) decision
              {| stdin := input; trace := (trace w ++ pre)%list |})
    as (post & _ & Htrace & (Hd & Hm & Ha & Hr) & _).
  cbn [trace] in Htrace. exists (pre ++ post)%list.
  split; [rewrite Htrace, app_assoc; reflexivity |].
  rewrite dispatches_app, (dispatches_quiet pre Hpre). cbn [app].
  auto.
Qed.

(** X10. Without a sender, a discard, meld, agari or riichi that is confirmed, or
    needs no confirmation, succeeds: it is only reported. *)
Theorem ExecuteDecision_without_sender_succeeds (decision : Decision) (w : World) :
  In (Action decision) ["discard"; "meld"; "agari"; "riichi"] ->
  (ConfirmActions config = false \/ accepts w) ->
  fst (ExecuteDecision config None decision w) = None
  /\ exists shown,
       trace (snd (ExecuteDecision config None decision w)) = (trace w ++ shown)%list
       /\ quiet shown.
Proof.
  intros Hin Hgo.
  assert (Hact : Action decision <> "pass").
  { intros E. rewrite E in Hin. cbn in Hin. intuition discriminate. }
  destruct (ExecuteDecision_proceeds config None decision w Hact Hgo)
    as (pre & input & Hrun & Hpre).
  rewrite Hrun.
  destruct (delayAndDispatch_effect config None decision
              {| stdin := input; trace := (trace w ++ pre)%list |})
    as (post & _ & Htrace & (Hnone & Hok) & _).
  split; [exact (Hok Hin) |].
  cbn [trace] in Htrace. exists (pre ++ post)%list.
  split; [rewrite Htrace, app_assoc; reflexivity |].
  apply Forall_app. split; [exact Hpre | apply quiet_dispatches, Hnone].
Qed.

End Senders.

End ExecutionMore.

(** ** More on the decision engine *)

Module AutoPlayerMore.

Import AutoPlayer.
Import Float64Facts.
Import AutoPlayerFacts.

Section Switches.

Context `{ext : Collaborators}.

Variables c1 c2 : AutoPlayerConfig.

Hypothesis same_Enabled : Enabled c1 = Enabled c2.
Hypothesis same_AutoMeld : AutoMeld c1 = AutoMeld c2.
Hypothesis same_DefenseThreshold : DefenseThreshold c1 = DefenseThreshold c2.
Hypothesis same_aggressive :
  String.eqb (Strategy c1) "aggressive" = String.eqb (Strategy c2) "aggressive".
Hypothesis same_defensive :
  String.eqb (Strategy c1) "defensive" = String.eqb (Strategy c2) "defensive".

Lemma defenceBranch_same (playerInfo : PlayerInfo) (mixedRiskTable : riskTable)
  (dangerLevel : float64) :
  defenceBranch c1 playerInfo mixedRiskTable dangerLevel =
  defenceBranch c2 playerInfo mixedRiskTable dangerLevel.
Proof.
  unfold defenceBranch. rewrite same_DefenseThreshold. reflexivity.
Qed.

Lemma makeDiscardDecision_same (playerInfo : PlayerInfo) (mixedRiskTable : riskTable) :
  makeDiscardDecision c1 playerInfo mixedRiskTable =
  makeDiscardDecision c2 playerInfo mixedRiskTable.
Proof.
  unfold makeDiscardDecision, defensiveDiscardDecision, balancedDiscardDecision.
  rewrite same_aggressive, same_defensive.
  destruct (CalculateShantenWithImproves14 playerInfo) as [[shanten results14] inc].
  destruct (assessDangerLevel mixedRiskTable playerInfo) as [dangerLevel | msg];
    [| reflexivity].
  cbn [obind]. rewrite !defenceBranch_same. reflexivity.
Qed.

(** X11. The decision reads four things of the configuration: Enabled, AutoMeld,
    DefenseThreshold, and whether Strategy is "aggressive", "defensive" or
    anything else.  AutoDiscard, AutoRiichi, AutoAgari, MinConfidence,
    DelaySeconds and ConfirmActions have no influence, and every strategy
    name other than the first two acts as "balanced". *)
Theorem MakeDecision_reads_four_settings
  (playerInfo : PlayerInfo) (mixedRiskTable : riskTable)
  (targetTile : Z) (canMeld : bool) :
  MakeDecision c1 playerInfo mixedRiskTable targetTile canMeld =
  MakeDecision c2 playerInfo mixedRiskTable targetTile canMeld.
Proof.
  unfold MakeDecision, makeMeldDecision.
  rewrite same_Enabled, same_AutoMeld, !makeDiscardDecision_same. reflexivity.
Qed.

End Switches.

Section Engine.

Context `{ext : Collaborators}.

Variable config : AutoPlayerConfig.

Ltac sound := split; [cbn; tauto | vm_compute; reflexivity].

Lemma balancedOffence_sound (results14 : Hand14AnalysisResultList)
  (dangerLevel : float64) :
  sound_decision (balancedOffence results14 dangerLevel).
Proof.
  unfold balancedOffence. destruct results14 as [| best rest]; [sound |].
  destruct (gt dangerLevel (of_ratio 1 10)); sound.
Qed.

Lemma defenceBranch_sound (playerInfo : PlayerInfo) (mixedRiskTable : riskTable)
  (dangerLevel : float64) (d : Decision) :
  defenceBranch config playerInfo mixedRiskTable dangerLevel = Ret (Some d) ->
  sound_decision d.
Proof.
  unfold defenceBranch.
  destruct (gt dangerLevel (DefenseThreshold config)); [| discriminate].
  destruct (getBestDefenceTile mixedRiskTable (HandTiles34 playerInfo) >=? 0);
    [| discriminate].
  destruct (riskAt mixedRiskTable _) as [risk | msg]; [| discriminate].
  cbn [obind]. intros [= <-]. sound.
Qed.

Lemma balancedDiscardDecision_sound (playerInfo : PlayerInfo)
  (results14 inc : Hand14AnalysisResultList) (mixedRiskTable : riskTable)
  (dangerLevel : float64) (d : Decision) :
  balancedDiscardDecision config playerInfo results14 inc mixedRiskTable dangerLevel
  = Ret d ->
  sound_decision d.
Proof.
  unfold balancedDiscardDecision.
  destruct (defenceBranch config playerInfo mixedRiskTable dangerLevel)
    as [[d' |] | msg] eqn:Hdef; cbn [obind]; [| | discriminate].
  - intros [= <-]. exact (defenceBranch_sound _ _ _ _ Hdef).
  - intros [= <-]. apply balancedOffence_sound.
Qed.

Lemma makeDiscardDecision_sound (playerInfo : PlayerInfo)
  (mixedRiskTable : riskTable) (d : Decision) :
  makeDiscardDecision config playerInfo mixedRiskTable = Ret d -> sound_decision d.
Proof.
  unfold makeDiscardDecision.
  destruct (CalculateShantenWithImproves14 playerInfo) as [[shanten results14] inc].
  destruct (assessDangerLevel mixedRiskTable playerInfo) as [dangerLevel | msg];
    [| discriminate].
  cbn [obind].
  destruct (String.eqb (Strategy config) "aggressive").
  - unfold aggressiveDiscardDecision.
    destruct results14 as [| best rest]; [destruct inc as [| best rest] |];
      intros [= <-]; sound.
  - destruct (String.eqb (Strategy config) "defensive").
    + unfold defensiveDiscardDecision.
      destruct (defenceBranch config playerInfo mixedRiskTable dangerLevel)
        as [[d' |] | msg] eqn:Hdef; cbn [obind]; [| | discriminate].
      * intros [= <-]. exact (defenceBranch_sound _ _ _ _ Hdef).
      * apply balancedDiscardDecision_sound.
    + apply balancedDiscardDecision_sound.
Qed.

(** X12. Whatever [MakeDecision] returns is a pass, an agari, a discard or a
    meld, never a riichi, and its confidence lies in [[0,1]]. *)
Theorem MakeDecision_sound
  (playerInfo : PlayerInfo) (mixedRiskTable : riskTable)
  (targetTile : Z) (canMeld : bool) (d : Decision) :
  MakeDecision config playerInfo mixedRiskTable targetTile canMeld = Ret d ->
  sound_decision d /\ Action d <> "riichi".
Proof.
  intros Hd.
  assert (Hsound : sound_decision d).
  { revert Hd. unfold MakeDecision.
    destruct (negb (Enabled config)); [intros [= <-]; sound |].
    assert (Hphases :
      (let handCount := CountOfTiles34 (HandTiles34 playerInfo) in
       if Z.rem handCount 3 =? 1 then makeDiscardDecision config playerInfo mixedRiskTable
       else if Z.rem handCount 3 =? 2 then
         if canMeld && negb (targetTile =? -1)
         then makeMeldDecision config playerInfo targetTile mixedRiskTable
         else makeDiscardDecision config playerInfo mixedRiskTable
       else Ret {| Action := "pass"; Tile := 0; Confidence := zero;
                   Reason := "无有效操作" |}) = Ret d -> sound_decision d).
    { cbv zeta.
      destruct (Z.rem (CountOfTiles34 (HandTiles34 playerInfo)) 3 =? 1);
        [apply makeDiscardDecision_sound |].
      destruct (Z.rem (CountOfTiles34 (HandTiles34 playerInfo)) 3 =? 2);
        [| intros [= <-]; sound].
      destruct (canMeld && negb (targetTile =? -1));
        [| apply makeDiscardDecision_sound].
      unfold makeMeldDecision.
      destruct (negb (AutoMeld config)); [intros [= <-]; sound |].
      destruct (CalculateMeld playerInfo targetTile false true)
        as [[shanten results14] inc].
      destruct results14 as [| best rest]; intros [= <-]; sound. }
    cbv zeta in Hphases |- *.
    destruct (Z.rem (CountOfTiles34 (HandTiles34 playerInfo)) 3 =? 1);
      [| exact Hphases].
    destruct (CalculateShantenWithImproves14 playerInfo) as [[shanten results14] inc].
    destruct (shanten =? -1); [intros [= <-]; sound | exact Hphases]. }
  split; [exact Hsound |].
  destruct Hsound as [Hin _]. intros E. rewrite E in Hin. cbn in Hin.
  intuition discriminate.
Qed.

(** The loop of [assessDangerLevel] ends without a panic when the table has
    an entry for every index of the hand. *)
Lemma assessDangerLoop_returns (l : list float64) :
  forall (counts : list Z) (i : nat) (acc : float64),
    (i + List.length counts <= List.length l)%nat ->
    exists m, assessDangerLoop (Some l) counts (Z.of_nat i) acc = Ret m.
Proof.
  induction counts as [| c rest IH]; intros i acc Hlen; [eexists; reflexivity |].
  cbn [List.length] in Hlen. cbn [assessDangerLoop].
  replace (Z.of_nat i + 1) with (Z.of_nat (S i)) by lia.
  destruct (c >? 0); [| apply IH; lia].
  destruct (nth_error l i) as [r |] eqn:Hr.
  2:{ apply nth_error_None in Hr. lia. }
  rewrite (riskAt_nth l i r Hr). cbn [obind]. apply IH. lia.
Qed.

Lemma assessDangerLevel_returns (mixedRiskTable : riskTable) (playerInfo : PlayerInfo) :
  (forall l, mixedRiskTable = Some l ->
             (List.length (HandTiles34 playerInfo) <= List.length l)%nat) ->
  exists dangerLevel,
    assessDangerLevel mixedRiskTable playerInfo = Ret dangerLevel
    /\ (mixedRiskTable = None -> dangerLevel = zero).
Proof.
  intros Hcover. unfold assessDangerLevel. destruct mixedRiskTable as [l |].
  - destruct (assessDangerLoop_returns l (HandTiles34 playerInfo) 0 zero) as [m Hm].
    + cbn. apply Hcover. reflexivity.
    + exists m. split; [exact Hm | discriminate].
  - exists zero. auto.
Qed.


Lemma assessDangerLoop_returns_iff (l : list float64) :
  forall (counts : list Z) (i : nat) (acc : float64),
    (exists m, assessDangerLoop (Some l) counts (Z.of_nat i) acc = Ret m)
    <-> (forall k c, nth_error counts k = Some c -> c > 0 ->
                     (i + k < List.length l)%nat).
Proof.
  induction counts as [| c rest IH]; intros i acc.
  - split; [intros _ k c Hk; destruct k; discriminate | eexists; reflexivity].
  - cbn [assessDangerLoop].
    replace (Z.of_nat i + 1) with (Z.of_nat (S i)) by lia.
    destruct (Z.gtb_spec c 0) as [Hc | Hc].
    + destruct (nth_error l i) as [r |] eqn:Hr.
      * rewrite (riskAt_nth l i r Hr). cbn [obind]. rewrite IH.
        assert (Hi : (i < List.length l)%nat) by (apply nth_error_Some; congruence).
        split.
        -- intros H k c' Hk Hc'. destruct k as [| k]; [lia |].
           specialize (H k c' Hk Hc'). lia.
        -- intros H k c' Hk Hc'. specialize (H (S k) c' Hk Hc'). lia.
      * assert (Hpanic : riskAt (Some l) (Z.of_nat i) = Panic "index out of range").
        { unfold riskAt. destruct (Z.ltb_spec (Z.of_nat i) 0); [reflexivity |].
          rewrite Nat2Z.id, Hr. reflexivity. }
        rewrite Hpanic. cbn [obind]. apply nth_error_None in Hr.
        split; [intros [m Hm]; discriminate |].
        intros H. specialize (H 0%nat c eq_refl ltac:(lia)). lia.
    + rewrite IH. split.
      * intros H k c' Hk Hc'. destruct k as [| k].
        -- cbn in Hk. injection Hk as <-. lia.
        -- specialize (H k c' Hk Hc'). lia.
      * intros H k c' Hk Hc'. specialize (H (S k) c' Hk Hc'). lia.
Qed.

(** X13. With a danger table present, [assessDangerLevel] returns exactly when
    the table has an entry for every tile held; a tile held beyond the end
    of the table makes it panic. *)
Theorem assessDangerLevel_returns_iff (l : list float64) (playerInfo : PlayerInfo) :
  (exists dangerLevel, assessDangerLevel (Some l) playerInfo = Ret dangerLevel)
  <-> (forall t count, nth_error (HandTiles34 playerInfo) t = Some count ->
                       count > 0 -> (t < List.length l)%nat).
Proof.
  unfold assessDangerLevel.
  apply (assessDangerLoop_returns_iff l (HandTiles34 playerInfo) 0 zero).
Qed.


(** X15. Above the threshold, when the table names a defence tile, the balanced
    and the defensive policy give the same decision: the discard of that
    tile with confidence 0.8, whatever the analysis results are. *)
Theorem defence_above_threshold
  (playerInfo : PlayerInfo) (results14 inc : Hand14AnalysisResultList)
  (mixedRiskTable : riskTable) (dangerLevel risk : float64) :
  let safestTile := getBestDefenceTile mixedRiskTable (HandTiles34 playerInfo) in
  gt dangerLevel (DefenseThreshold config) = true ->
  0 <= safestTile ->
  riskAt mixedRiskTable safestTile = Ret risk ->
  balancedDiscardDecision config playerInfo results14 inc mixedRiskTable dangerLevel
  = Ret {| Action := "discard"; Tile := safestTile; Confidence := of_ratio 8 10;
           Reason := "防守切牌：" ++ MahjongZH safestTile
                     ++ " (危险度" ++ fmt_2f risk ++ ")" |}
  /\ defensiveDiscardDecision config playerInfo mixedRiskTable dangerLevel
     = balancedDiscardDecision config playerInfo results14 inc mixedRiskTable
         dangerLevel.
Proof.
  intros safestTile Hgt Hsafe Hrisk.
  assert (Hdef : defenceBranch config playerInfo mixedRiskTable dangerLevel =
                 Ret (Some {| Action := "discard"; Tile := safestTile;
                              Confidence := of_ratio 8 10;
                              Reason := "防守切牌：" ++ MahjongZH safestTile
                                        ++ " (危险度" ++ fmt_2f risk ++ ")" |})).
  { unfold defenceBranch. rewrite Hgt. fold safestTile.
    destruct (Z.geb_spec safestTile 0); [| lia].
    rewrite Hrisk. reflexivity. }
  unfold defensiveDiscardDecision, balancedDiscardDecision. rewrite Hdef.
  split; reflexivity.
Qed.

(** X16. The aggressive strategy in the draw phase, the hand not complete and the
    danger table absent or covering the hand: the first candidate is
    discarded with confidence 0.9; without candidates, the first
    shanten-regressing candidate with confidence 0.7; without either, a pass.
    The risks in the table and the threshold have no influence. *)
Theorem aggressive_takes_first_candidate
  (playerInfo : PlayerInfo) (mixedRiskTable : riskTable)
  (targetTile : Z) (canMeld : bool) :
  Enabled config = true ->
  Strategy config = "aggressive" ->
  Z.rem (CountOfTiles34 (HandTiles34 playerInfo)) 3 = 1 ->
  fst (fst (CalculateShantenWithImproves14 playerInfo)) <> -1 ->
  (forall l, mixedRiskTable = Some l ->
             (List.length (HandTiles34 playerInfo) <= List.length l)%nat) ->
  exists dangerLevel,
    MakeDecision config playerInfo mixedRiskTable targetTile canMeld =
      aggressiveDiscardDecision playerInfo
        (snd (fst (CalculateShantenWithImproves14 playerInfo)))
        (snd (CalculateShantenWithImproves14 playerInfo)) dangerLevel
    /\ match snd (fst (CalculateShantenWithImproves14 playerInfo)),
             snd (CalculateShantenWithImproves14 playerInfo) with
       | best :: _, _ =>
           exists reason,
             MakeDecision config playerInfo mixedRiskTable targetTile canMeld =
               Ret {| Action := "discard"; Tile := DiscardTile best;
                      Confidence := of_ratio 9 10; Reason := reason |}
       | [], best :: _ =>
           exists reason,
             MakeDecision config playerInfo mixedRiskTable targetTile canMeld =
               Ret {| Action := "discard"; Tile := DiscardTile best;
                      Confidence := of_ratio 7 10; Reason := reason |}
       | [], [] =>
           MakeDecision config playerInfo mixedRiskTable targetTile canMeld =
             Ret noCandidate
       end.
Proof.
  intros Hon Hstrategy Hrem Hshanten Hcover.
  destruct (assessDangerLevel_returns mixedRiskTable playerInfo Hcover)
    as (dangerLevel & Hdanger & _).
  exists dangerLevel.
  assert (Hmake : MakeDecision config playerInfo mixedRiskTable targetTile canMeld =
                  aggressiveDiscardDecision playerInfo
                    (snd (fst (CalculateShantenWithImproves14 playerInfo)))
                    (snd (CalculateShantenWithImproves14 playerInfo)) dangerLevel).
  { unfold MakeDecision, makeDiscardDecision. rewrite Hon, Hrem, Hstrategy, Hdanger.
    cbn [negb Z.eqb Pos.eqb obind String.eqb Ascii.eqb Bool.eqb].
    destruct (CalculateShantenWithImproves14 playerInfo) as [[shanten results14] inc].
    cbn [fst snd] in *. apply Z.eqb_neq in Hshanten. rewrite Hshanten. reflexivity. }
  split; [exact Hmake |]. rewrite Hmake. unfold aggressiveDiscardDecision.
  destruct (snd (fst (CalculateShantenWithImproves14 playerInfo))) as [| best rest];
    [destruct (snd (CalculateShantenWithImproves14 playerInfo)) as [| best rest] |];
    try reflexivity; eexists; reflexivity.
Qed.

End Engine.

End AutoPlayerMore.

(** ** More on the configuration store *)

Module StoreMore.

Import ConfigFile.
Import Store.

(** X17. The two field-by-field copies, of [LoadAutoPlayerConfig] and of
    [SaveAutoPlayerConfig], are inverse to each other: nothing is lost
    between the file's structure and the active configuration. *)
Theorem applied_persisted_inverse :
  (forall configFile, persisted (applied configFile) = configFile)
  /\ (forall config, applied (persisted config) = config).
Proof.
  split; intros []; reflexivity.
Qed.

Section Persisting.

Context `{json : Json}.




(** X20. Whenever [LoadAutoPlayerConfig] succeeds, the configuration that is
    active afterwards passes the validation: the one read from the file, or
    the default. *)
Theorem LoadAutoPlayerConfig_success_is_valid (g : Globals) :
  fst (LoadAutoPlayerConfig g) = None ->
  validateConfig (persisted (autoPlayerConfig (snd (LoadAutoPlayerConfig g)))) = None.
Proof.
  unfold LoadAutoPlayerConfig, SaveDefaultConfig.
  destruct (file (fs g)) as [content |].
  - destruct (readFault (fs g)); [discriminate |].
    destruct (Unmarshal content) as [configFile | err]; [| discriminate].
    destruct (validateConfig configFile) eqn:Hvalid; [discriminate |].
    intros _. cbn [snd SetAutoPlayerConfig autoPlayerConfig].
    destruct applied_persisted_inverse as [Hpa _]. rewrite Hpa. exact Hvalid.
  - destruct (MarshalIndent defaultConfigFile) as [data | err]; [| discriminate].
    destruct (writeConfig _ _ data g) as [[err |] g']; [discriminate |].
    intros _. vm_compute. reflexivity.
Qed.

(** X21. Loading what was just saved, with a JSON codec that reads back what it
    wrote: the state stays as the save left it, and the load succeeds
    exactly when the active configuration is valid.  An invalid
    configuration is saved without complaint and rejected by the load. *)
Theorem Load_after_Save (g : Globals) :
  fst (SaveAutoPlayerConfig g) = None ->
  readFault (fs g) = None ->
  (forall data, MarshalIndent (persisted (autoPlayerConfig g)) = inl data ->
                Unmarshal data = inl (persisted (autoPlayerConfig g))) ->
  LoadAutoPlayerConfig (snd (SaveAutoPlayerConfig g)) =
    (match validateConfig (persisted (autoPlayerConfig g)) with
     | Some err => Some ("配置文件验证失败: " ++ err)
     | None => None
     end,
     snd (SaveAutoPlayerConfig g)).
Proof.
  unfold SaveAutoPlayerConfig, GetAutoPlayerConfig, writeConfig.
  intros Hsaved Hread Hcodec.
  destruct (MarshalIndent (persisted (autoPlayerConfig g))) as [data | err] eqn:Hdata;
    [| discriminate].
  specialize (Hcodec data eq_refl).
  destruct (mkdirFault (fs g)); [discriminate |].
  destruct (writeFault (fs g)); [discriminate |].
  cbn [snd]. unfold LoadAutoPlayerConfig. cbn [fs file readFault].
  rewrite Hread, Hcodec.
  destruct (validateConfig (persisted (autoPlayerConfig g))); [reflexivity |].
  unfold SetAutoPlayerConfig. cbn [fs].
  destruct applied_persisted_inverse as [_ Hap]. rewrite Hap. reflexivity.
Qed.

End Persisting.

End StoreMore.

(** ** More on the interactive loop *)

Module InteractMore.

Import AutoPlayer.
Import Execution.
Import Interact.

Lemma fold_add_from (l : list Z) :
  forall a, fold_left Z.add l a = a + fold_left Z.add l 0.
Proof.
  induction l as [| x l IH]; intros a; cbn; [lia |].
  rewrite (IH (a + x)), (IH x). lia.
Qed.

Lemma CountOfTiles34_cons (x : Z) (l : list Z) :
  CountOfTiles34 (x :: l) = x + CountOfTiles34 l.
Proof.
  unfold CountOfTiles34. cbn. apply fold_add_from.
Qed.

Lemma CountOfTiles34_set_nth (l : list Z) :
  forall (n : nat) (old new : Z),
    nth_error l n = Some old ->
    CountOfTiles34 (set_nth l n new) = CountOfTiles34 l - old + new.
Proof.
  induction l as [| x l IH]; intros n old new Hn.
  - destruct n; discriminate.
  - destruct n as [| n]; cbn [set_nth]; rewrite !CountOfTiles34_cons.
    + cbn in Hn. injection Hn as ->. lia.
    + cbn in Hn. rewrite (IH n old new Hn). lia.
Qed.

Lemma Forall_set_nth (P : Z -> Prop) (l : list Z) :
  forall (n : nat) (new : Z), Forall P l -> P new -> Forall P (set_nth l n new).
Proof.
  induction l as [| x l IH]; intros n new Hl Hnew; [destruct n; constructor |].
  inversion Hl; subst. destruct n; cbn; constructor; auto.
Qed.

Lemma index_nth (l : list Z) (i v : Z) :
  index l i = Ret v -> 0 <= i /\ nth_error l (Z.to_nat i) = Some v.
Proof.
  unfold index. destruct (Z.ltb_spec i 0); [discriminate |].
  destruct (nth_error l (Z.to_nat i)); [| discriminate].
  intros [= ->]. auto.
Qed.

Lemma update_set_nth (l l' : list Z) (i : Z) (f : Z -> Z) :
  update l i f = Ret l' ->
  exists v, 0 <= i /\ nth_error l (Z.to_nat i) = Some v
            /\ l' = set_nth l (Z.to_nat i) (f v).
Proof.
  unfold update. destruct (index l i) as [v | msg] eqn:Hi; [| discriminate].
  cbn [obind]. intros [= <-]. apply index_nth in Hi. exists v. tauto.
Qed.

Section Turns.

Context `{console : Console}.

(** One turn that goes on either leaves the player's tiles alone, or is a
    draw (count 1 modulo 3) moving one tile from the wall to the hand, or a
    discard (count 2 modulo 3) moving one tile from the hand to the discards. *)
Lemma turn_cases (playerInfo playerInfo' : PlayerInfo) (tile tile' : string)
  (w w' : World) :
  iteration playerInfo tile w = (Continue playerInfo' tile', w') ->
  playerInfo' = playerInfo
  \/ (Z.rem (CountOfTiles34 (HandTiles34 playerInfo)) 3 = 1
      /\ exists t held left,
           nth_error (HandTiles34 playerInfo) t = Some held /\ held <> 4
           /\ nth_error (LeftTiles34 playerInfo) t = Some left
           /\ HandTiles34 playerInfo' = set_nth (HandTiles34 playerInfo) t (Z.succ held)
           /\ LeftTiles34 playerInfo' = set_nth (LeftTiles34 playerInfo) t (Z.pred left)
           /\ DiscardTiles playerInfo' = DiscardTiles playerInfo)
  \/ (Z.rem (CountOfTiles34 (HandTiles34 playerInfo)) 3 = 2
      /\ exists t held,
           nth_error (HandTiles34 playerInfo) t = Some held /\ held <> 0
           /\ HandTiles34 playerInfo' = set_nth (HandTiles34 playerInfo) t (Z.pred held)
           /\ LeftTiles34 playerInfo' = LeftTiles34 playerInfo
           /\ DiscardTiles playerInfo' =
              (DiscardTiles playerInfo ++ [Z.of_nat t])%list).
Proof.
  unfold iteration.
  destruct (Z.eqb_spec (Z.rem (CountOfTiles34 (HandTiles34 playerInfo)) 3) 0);
    [discriminate |].
  destruct (Z.eqb_spec (Z.rem (CountOfTiles34 (HandTiles34 playerInfo)) 3) 1)
    as [Hdraw | _].
  - unfold draw, bind.
    destruct (emit _ w) as [u w0].
    destruct (Scanf tile w0) as [token w1].
    destruct (handleSpecialCommands token w1) as [[[|] | code] w2];
      [intros [= <- _ _]; auto | | discriminate].
    destruct (StrToTile34 token) as [[tile34 isRedFive] | err].
    2:{ destruct (emit _ w2). intros [= <- _ _]. auto. }
    destruct (index (HandTiles34 playerInfo) tile34) as [held | msg] eqn:Hheld;
      [| discriminate].
    destruct (Z.eqb_spec held 4) as [| Hfull].
    { destruct (emit _ w2). intros [= <- _ _]. auto. }
    destruct (if isRedFive
              then update (NumRedFives playerInfo) (Z.quot tile34 9) Z.succ
              else Ret (NumRedFives playerInfo)) as [reds | msg]; [| discriminate].
    cbn [obind].
    destruct (update (LeftTiles34 playerInfo) tile34 Z.pred) as [left' | msg] eqn:Hleft;
      [| discriminate].
    cbn [obind].
    destruct (update (HandTiles34 playerInfo) tile34 Z.succ) as [hand' | msg] eqn:Hhand;
      [| discriminate].
    cbn [obind]. unfold analyse, bind, ret.
    intros Hstep.
    assert (Hp : playerInfo' = {| HandTiles34 := hand'; LeftTiles34 := left';
                                  NumRedFives := reds;
                                  DiscardTiles := DiscardTiles playerInfo |}).
    { destruct (analysisPlayerWithRisk _); [destruct (emit _ w2) |];
        injection Hstep as <- _ _; reflexivity. }
    subst playerInfo'. cbn [HandTiles34 LeftTiles34 DiscardTiles].
    right. left. split; [exact Hdraw |].
    apply update_set_nth in Hleft, Hhand.
    destruct Hleft as (left & _ & Hleft & ->), Hhand as (held' & _ & Hhand & ->).
    exists (Z.to_nat tile34), held', left.
    apply index_nth in Hheld. destruct Hheld as [_ Hheld].
    assert (held' = held) by congruence. subst held'. auto 7.
  - destruct (Z.eqb_spec (Z.rem (CountOfTiles34 (HandTiles34 playerInfo)) 3) 2)
      as [Hdiscard | _].
    + unfold discard, bind.
      destruct (emit _ w) as [u w0].
      destruct (Scanf tile w0) as [token w1].
      destruct (handleSpecialCommands token w1) as [[[|] | code] w2];
        [intros [= <- _ _]; auto | | discriminate].
      destruct (StrToTile34 token) as [[tile34 isRedFive] | err].
      2:{ destruct (emit _ w2). intros [= <- _ _]. auto. }
      destruct (index (HandTiles34 playerInfo) tile34) as [held | msg] eqn:Hheld;
        [| discriminate].
      destruct (Z.eqb_spec held 0) as [| Hsome].
      { destruct (emit _ w2). intros [= <- _ _]. auto. }
      destruct (if isRedFive
                then update (NumRedFives playerInfo) (Z.quot tile34 9) Z.pred
                else Ret (NumRedFives playerInfo)) as [reds | msg]; [| discriminate].
      cbn [obind].
      destruct (update (HandTiles34 playerInfo) tile34 Z.pred) as [hand' | msg] eqn:Hhand;
        [| discriminate].
      cbn [obind]. unfold analyse, bind, ret.
      intros Hstep.
      assert (Hp : playerInfo' =
                   {| HandTiles34 := hand'; LeftTiles34 := LeftTiles34 playerInfo;
                      NumRedFives := reds;
                      DiscardTiles := (DiscardTiles playerInfo ++ [tile34])%list |}).
      { destruct (analysisPlayerWithRisk _); [destruct (emit _ w2) |];
          injection Hstep as <- _ _; reflexivity. }
      subst playerInfo'. cbn [HandTiles34 LeftTiles34 DiscardTiles].
      right. right. split; [exact Hdiscard |].
      apply update_set_nth in Hhand. destruct Hhand as (held' & Hpos & Hhand & ->).
      exists (Z.to_nat tile34), held'.
      apply index_nth in Hheld. destruct Hheld as [_ Hheld].
      assert (held' = held) by congruence. subst held'.
      rewrite Z2Nat.id by exact Hpos. auto 7.
    + unfold analyse, bind, ret.
      destruct (analysisPlayerWithRisk _); [destruct (emit _ w) |];
        intros [= <- _ _]; auto.
Qed.

(** A turn that starts with a count of 1 or 2 modulo 3 does not make
    [interact] return. *)
Lemma turn_does_not_return (playerInfo : PlayerInfo) (tile : string) (w : World)
  (err : error) :
  Z.rem (CountOfTiles34 (HandTiles34 playerInfo)) 3 = 1
  \/ Z.rem (CountOfTiles34 (HandTiles34 playerInfo)) 3 = 2 ->
  fst (iteration playerInfo tile w) <> Return err.
Proof.
  intros Hphase. unfold iteration.
  destruct (Z.eqb_spec (Z.rem (CountOfTiles34 (HandTiles34 playerInfo)) 3) 0);
    [lia |].
  assert (Hanalyse : forall p t w0, fst (analyse p t w0) <> Return err).
  { intros p t w0. unfold analyse, bind, ret.
    destruct (analysisPlayerWithRisk p); [destruct (emit _ w0) |]; discriminate. }
  destruct (Z.eqb_spec (Z.rem (CountOfTiles34 (HandTiles34 playerInfo)) 3) 1).
  - unfold draw, bind.
    destruct (emit _ w) as [u w0].
    destruct (Scanf tile w0) as [token w1].
    destruct (handleSpecialCommands token w1) as [[[|] | code] w2];
      try discriminate.
    destruct (StrToTile34 token) as [[tile34 isRedFive] | err'].
    2:{ destruct (emit _ w2). discriminate. }
    destruct (index (HandTiles34 playerInfo) tile34) as [held | msg];
      [| discriminate].
    destruct (held =? 4); [destruct (emit _ w2); discriminate |].
    match goal with
    | |- context [match ?o with Ret _ => _ | Panic _ => _ end] =>
        destruct o as [p' | msg]; [apply Hanalyse | discriminate]
    end.
  - destruct (Z.eqb_spec (Z.rem (CountOfTiles34 (HandTiles34 playerInfo)) 3) 2);
      [| lia].
    unfold discard, bind.
    destruct (emit _ w) as [u w0].
    destruct (Scanf tile w0) as [token w1].
    destruct (handleSpecialCommands token w1) as [[[|] | code] w2];
      try discriminate.
    destruct (StrToTile34 token) as [[tile34 isRedFive] | err'].
    2:{ destruct (emit _ w2). discriminate. }
    destruct (index (HandTiles34 playerInfo) tile34) as [held | msg];
      [| discriminate].
    destruct (held =? 0); [destruct (emit _ w2); discriminate |].
    match goal with
    | |- context [match ?o with Ret _ => _ | Panic _ => _ end] =>
        destruct o as [p' | msg]; [apply Hanalyse | discriminate]
    end.
Qed.

Lemma rem_positive (c r : Z) : Z.rem c 3 = r -> 0 < r -> 0 <= c.
Proof.
  intros Hrem Hr. destruct (Z_lt_le_dec c 0) as [Hneg |]; [| assumption].
  pose proof (Z.rem_nonpos c 3 ltac:(lia) ltac:(lia)). lia.
Qed.

Lemma rem_1_succ (c : Z) : Z.rem c 3 = 1 -> Z.rem (c + 1) 3 = 2.
Proof.
  intros Hrem. pose proof (rem_positive c 1 Hrem ltac:(lia)) as Hc.
  rewrite Z.rem_mod_nonneg in * by lia.
  pose proof (Z.div_mod c 3 ltac:(lia)) as Hdiv.
  symmetry. apply (Z.mod_unique_pos (c + 1) 3 (c / 3) 2); lia.
Qed.

Lemma rem_2_pred (c : Z) : Z.rem c 3 = 2 -> Z.rem (c - 1) 3 = 1.
Proof.
  intros Hrem. pose proof (rem_positive c 2 Hrem ltac:(lia)) as Hc.
  rewrite Z.rem_mod_nonneg in Hrem by lia.
  pose proof (Z.div_mod c 3 ltac:(lia)) as Hdiv.
  pose proof (Z.div_pos c 3 Hc ltac:(lia)) as Hq.
  rewrite Z.rem_mod_nonneg by lia.
  symmetry. apply (Z.mod_unique_pos (c - 1) 3 (c / 3) 1); lia.
Qed.

(** A turn keeps the count at 1 or 2 modulo 3: a draw takes 1 to 2, a
    discard takes 2 to 1. *)
Lemma turn_keeps_phase (playerInfo playerInfo' : PlayerInfo) (tile tile' : string)
  (w w' : World) :
  iteration playerInfo tile w = (Continue playerInfo' tile', w') ->
  Z.rem (CountOfTiles34 (HandTiles34 playerInfo)) 3 = 1
  \/ Z.rem (CountOfTiles34 (HandTiles34 playerInfo)) 3 = 2 ->
  Z.rem (CountOfTiles34 (HandTiles34 playerInfo')) 3 = 1
  \/ Z.rem (CountOfTiles34 (HandTiles34 playerInfo')) 3 = 2.
Proof.
  intros Hturn Hphase.
  destruct (turn_cases _ _ _ _ _ _ Hturn)
    as [-> | [(Hrem & t & held & left & Hheld & _ & _ & -> & _)
             | (Hrem & t & held & Hheld & _ & -> & _)]];
    [exact Hphase | |];
    rewrite (CountOfTiles34_set_nth _ t held _ Hheld).
  - right.
    replace (CountOfTiles34 (HandTiles34 playerInfo) - held + Z.succ held)
      with (CountOfTiles34 (HandTiles34 playerInfo) + 1) by lia.
    apply rem_1_succ, Hrem.
  - left.
    replace (CountOfTiles34 (HandTiles34 playerInfo) - held + Z.pred held)
      with (CountOfTiles34 (HandTiles34 playerInfo) - 1) by lia.
    apply rem_2_pred, Hrem.
Qed.

(** X22. From a hand whose count is 1 or 2 modulo 3 the loop never returns an
    error: the count error of the remainder 0 can only come from the hand
    the loop starts with.  The loop ends by exit, or by a recovered panic,
    which returns [nil]. *)
Theorem loop_never_reports_count_error (fuel : nat) :
  forall (playerInfo : PlayerInfo) (tile : string) (w : World) (err : string),
    Z.rem (CountOfTiles34 (HandTiles34 playerInfo)) 3 = 1
    \/ Z.rem (CountOfTiles34 (HandTiles34 playerInfo)) 3 = 2 ->
    fst (loop fuel playerInfo tile w) <> Returned (Some err).
Proof.
  induction fuel as [| fuel IH]; intros playerInfo tile w err Hphase;
    [discriminate |].
  cbn [loop]. unfold bind.
  pose proof (turn_does_not_return playerInfo tile w) as Hnoreturn.
  destruct (iteration playerInfo tile w) as [[playerInfo' tile' | e | code | msg] w']
    eqn:Hturn.
  - apply IH. exact (turn_keeps_phase _ _ _ _ _ _ Hturn Hphase).
  - exfalso. apply (Hnoreturn e Hphase). reflexivity.
  - discriminate.
  - destruct (negb debugMode); [| discriminate].
    unfold Println. destruct (emit _ w'). discriminate.
Qed.

(** What every turn that goes on preserves, the loop preserves. *)
Lemma loop_invariant (I : PlayerInfo -> Prop) :
  (forall playerInfo playerInfo' tile tile' w w',
      iteration playerInfo tile w = (Continue playerInfo' tile', w') ->
      I playerInfo -> I playerInfo') ->
  forall (fuel : nat) playerInfo playerInfo' tile tile' w w',
    loop fuel playerInfo tile w = (Running playerInfo' tile', w') ->
    I playerInfo -> I playerInfo'.
Proof.
  intros Hturn. induction fuel as [| fuel IH];
    intros playerInfo playerInfo' tile tile' w w' Hloop HI.
  - cbn in Hloop. injection Hloop as <- _ _. exact HI.
  - cbn [loop] in Hloop. unfold bind in Hloop.
    destruct (iteration playerInfo tile w) as [[p1 t1 | e | code | msg] w1] eqn:Hstep;
      try discriminate.
    + apply (IH _ _ _ _ _ _ Hloop). exact (Hturn _ _ _ _ _ _ Hstep HI).
    + destruct (negb debugMode); [| discriminate].
      unfold Println in Hloop. destruct (emit _ w1). discriminate.
Qed.

(** X23. After any number of turns every count of the hand is still between 0
    and 4: no fifth copy of a tile is drawn and no tile that is not held is
    discarded. *)
Theorem loop_keeps_tiles_in_bounds
  (fuel : nat) (playerInfo playerInfo' : PlayerInfo) (tile tile' : string)
  (w w' : World) :
  loop fuel playerInfo tile w = (Running playerInfo' tile', w') ->
  tiles_in_bounds playerInfo ->
  tiles_in_bounds playerInfo'.
Proof.
  apply (loop_invariant tiles_in_bounds). clear.
  intros playerInfo playerInfo' tile tile' w w' Hturn Hbounds.
  unfold tiles_in_bounds in *.
  destruct (turn_cases _ _ _ _ _ _ Hturn)
    as [-> | [(_ & t & held & left & Hheld & Hne & _ & -> & _)
             | (_ & t & held & Hheld & Hne & -> & _)]];
    [exact Hbounds | |];
    apply Forall_set_nth; auto;
    apply nth_error_In in Hheld;
    rewrite Forall_forall in Hbounds; specialize (Hbounds held Hheld); lia.
Qed.

(** X24. After any number of turns the tiles in the hand, left to draw and
    discarded add up to what they did at the start: a draw moves one tile
    from the wall to the hand, a discard one from the hand to the discards. *)
Theorem loop_accounts_for_tiles
  (fuel : nat) (playerInfo playerInfo' : PlayerInfo) (tile tile' : string)
  (w w' : World) :
  loop fuel playerInfo tile w = (Running playerInfo' tile', w') ->
  tilesAccounted playerInfo' = tilesAccounted playerInfo.
Proof.
  intros Hloop.
  apply (loop_invariant (fun p => tilesAccounted p = tilesAccounted playerInfo))
    with (fuel := fuel) (playerInfo := playerInfo) (tile := tile) (tile' := tile')
         (w := w) (w' := w'); [| exact Hloop | reflexivity].
  clear. intros p p' tile tile' w w' Hturn Hsame. rewrite <- Hsame.
  unfold tilesAccounted.
  destruct (turn_cases _ _ _ _ _ _ Hturn)
    as [-> | [(_ & t & held & left & Hheld & _ & Hleft & -> & -> & ->)
             | (_ & t & held & Hheld & _ & -> & -> & ->)]];
    [reflexivity | |].
  - rewrite (CountOfTiles34_set_nth _ t held _ Hheld),
      (CountOfTiles34_set_nth _ t left _ Hleft). lia.
  - rewrite (CountOfTiles34_set_nth _ t held _ Hheld), length_app. cbn. lia.
Qed.

End Turns.

End InteractMore.

(** ** The further properties on sample inputs *)

Module MoreScenarios.

Import AutoPlayer.
Import Examples.

Lemma injective_witness :
  Majsoul.Tile34ToMajsoulStr 4 <> Majsoul.Tile34ToMajsoulStr 13.
Proof.
  intros E. apply MajsoulMore.Tile34ToMajsoulStr_injective in E;
    [discriminate | lia | lia].
Defined.

Lemma SendMeld_types_witness :
  Majsoul.SendMeld localServer 0 7 4 [4; 4; 4] = (Some "未知的鸣牌类型: 7", [])
  /\ Majsoul.SendMeld localServer 0 1 4 [4; 4; 4] =
     Majsoul.sendAction localServer
       {| Majsoul.Type_ := 2; Majsoul.Tile := "5m"; Majsoul.Combination := "5m|5m|5m";
          Majsoul.Pass := false; Majsoul.Timestamp := 0 |}.
Proof.
  split.
  - apply (proj1 (MajsoulMore.SendMeld_types localServer 0 7 4 [4; 4; 4]));
      discriminate.
  - apply (proj2 (MajsoulMore.SendMeld_types localServer 0 1 4 [4; 4; 4])). lia.
Defined.

Lemma SendMeld_tile_member_witness :
  exists post,
    snd (Majsoul.SendMeld localServer 0 1 4 [4; 4; 4]) = [post]
    /\ In ("tile", Majsoul.JString "5m") (Majsoul.body post).
Proof.
  destruct (MajsoulMore.SendMeld_tile_member localServer 0 1 4 [4; 4; 4]
              ltac:(lia)) as (post & Hpost & Hin & _).
  exists post. split; [exact Hpost | apply Hin; lia].
Defined.

Lemma at_most_one_dispatch_witness :
  exists shown,
    Execution.trace
      (snd (@Execution.ExecuteDecision (analysis 1 []) otherConfig None
              (discardOf 4) (answering "")))
    = ([] ++ shown)%list
    /\ Execution.dispatches shown = [].
Proof.
  destruct (@ExecutionMore.ExecuteDecision_at_most_one_dispatch (analysis 1 [])
              otherConfig None (discardOf 4) (answering ""))
    as (shown & Htrace & _ & Hnone).
  exists shown. split; [exact Htrace | apply Hnone; reflexivity].
Defined.

Lemma unknown_action_witness :
  fst (@Execution.ExecuteDecision (analysis 1 []) (enabledConfig "balanced" false)
         (Some okSender) kanDecision (answering "y"))
  = Some "未知操作类型: kan".
Proof.
  apply (@ExecutionMore.ExecuteDecision_unknown_action (analysis 1 [])
           (enabledConfig "balanced" false) (Some okSender) kanDecision
           (answering "y")).
  - cbn. intuition discriminate.
  - right. left. reflexivity.
Defined.

Lemma surfaces_sender_result_witness :
  fst (@Execution.ExecuteDecision (analysis 1 []) (enabledConfig "balanced" false)
         (Some failingSender) (discardOf 4) (answering "y"))
  = Some "timeout".
Proof.
  destruct (@ExecutionMore.ExecuteDecision_surfaces_sender_result (analysis 1 [])
              (enabledConfig "balanced" false) failingSender (discardOf 4)
              (answering "y") (or_intror (or_introl eq_refl)))
    as (shown & _ & Hdiscard & _).
  apply Hdiscard. reflexivity.
Defined.

Lemma without_sender_witness :
  fst (@Execution.ExecuteDecision (analysis 1 []) (enabledConfig "balanced" false)
         None riichiDecision (answering "Y"))
  = None.
Proof.
  apply (@ExecutionMore.ExecuteDecision_without_sender_succeeds (analysis 1 [])
           (enabledConfig "balanced" false) riichiDecision (answering "Y")).
  - cbn. auto.
  - right. right. reflexivity.
Defined.

Lemma reads_four_settings_witness :
  @MakeDecision (analysis 1 [candidate 4 8]) (enabledConfig "balanced" false)
    (handOf 13) (flatTable (of_ratio 1 2)) (-1) false
  = @MakeDecision (analysis 1 [candidate 4 8]) otherConfig
      (handOf 13) (flatTable (of_ratio 1 2)) (-1) false.
Proof.
  apply (@AutoPlayerMore.MakeDecision_reads_four_settings (analysis 1 [candidate 4 8])
           (enabledConfig "balanced" false) otherConfig);
    reflexivity.
Defined.

Lemma sound_witness :
  sound_decision {| Action := "agari"; Tile := 0; Confidence := of_Z 1;
                    Reason := "已和牌" |}
  /\ Action {| Action := "agari"; Tile := 0; Confidence := of_Z 1;
               Reason := "已和牌" |} <> "riichi".
Proof.
  apply (@AutoPlayerMore.MakeDecision_sound (analysis (-1) [])
           (enabledConfig "defensive" false) (handOf 13) None (-1) false).
  vm_compute. reflexivity.
Defined.


Lemma defence_above_threshold_witness :
  @balancedDiscardDecision (analysis 1 [candidate 4 8]) (enabledConfig "balanced" false)
    (handOf 13) [candidate 4 8] [] (flatTable (of_ratio 1 2)) (of_ratio 1 2)
  = Ret {| Action := "discard"; Tile := 0; Confidence := of_ratio 8 10;
           Reason := "防守切牌：1m (危险度0.00)" |}.
Proof.
  apply (@AutoPlayerMore.defence_above_threshold (analysis 1 [candidate 4 8])
           (enabledConfig "balanced" false) (handOf 13) [candidate 4 8] []
           (flatTable (of_ratio 1 2)) (of_ratio 1 2) (of_ratio 1 2)).
  - vm_compute. reflexivity.
  - vm_compute. discriminate.
  - vm_compute. reflexivity.
Defined.

Lemma aggressive_witness :
  exists reason,
    @MakeDecision (analysis 1 [candidate 4 8]) (enabledConfig "aggressive" false)
      (handOf 13) None (-1) false
    = Ret {| Action := "discard"; Tile := 4; Confidence := of_ratio 9 10;
             Reason := reason |}.
Proof.
  destruct (@AutoPlayerMore.aggressive_takes_first_candidate
              (analysis 1 [candidate 4 8]) (enabledConfig "aggressive" false)
              (handOf 13) None (-1) false eq_refl eq_refl eq_refl
              ltac:(discriminate) ltac:(discriminate))
    as (dangerLevel & _ & Hfirst).
  exact Hfirst.
Defined.



Lemma load_success_is_valid_witness :
  ConfigFile.validateConfig
    (Store.persisted
       (Store.autoPlayerConfig
          (snd (Store.LoadAutoPlayerConfig (json := slowJson) noFileGlobals))))
  = None.
Proof.
  apply (@StoreMore.LoadAutoPlayerConfig_success_is_valid slowJson noFileGlobals).
  reflexivity.
Defined.

Lemma load_after_save_witness :
  Store.LoadAutoPlayerConfig (json := defaultJson)
    (snd (Store.SaveAutoPlayerConfig (json := defaultJson) slowGlobals))
  = (None, snd (Store.SaveAutoPlayerConfig (json := defaultJson) slowGlobals)).
Proof.
  apply (@StoreMore.Load_after_Save defaultJson slowGlobals).
  - reflexivity.
  - reflexivity.
  - intros data _. reflexivity.
Defined.

Lemma two_turns_run :
  exists w',
    Interact.loop (console := tileConsole) 2 (handOf 13) "" twoTurns
    = (Interact.Running afterTwoTurns "1m", w').
Proof.
  eexists. vm_compute. reflexivity.
Qed.

Lemma never_reports_count_error_witness :
  fst (Interact.loop (console := tileConsole) 2 (handOf 13) "" twoTurns)
  <> Interact.Returned (Some "参数错误: 13 张牌").
Proof.
  apply (@InteractMore.loop_never_reports_count_error tileConsole 2 (handOf 13) ""
           twoTurns).
  left. reflexivity.
Defined.

Lemma tiles_in_bounds_witness : Interact.tiles_in_bounds afterTwoTurns.
Proof.
  eapply (@InteractMore.loop_keeps_tiles_in_bounds tileConsole 2 (handOf 13)
            afterTwoTurns "" "1m" twoTurns).
  - vm_compute. reflexivity.
  - unfold Interact.tiles_in_bounds. cbn. repeat constructor; discriminate.
Defined.

Lemma accounts_for_tiles_witness :
  Interact.tilesAccounted afterTwoTurns = Interact.tilesAccounted (handOf 13).
Proof.
  eapply (@InteractMore.loop_accounts_for_tiles tileConsole 2 (handOf 13)
            afterTwoTurns "" "1m" twoTurns).
  vm_compute. reflexivity.
Defined.

End MoreScenarios.
